(** * database_tool/views.py: request handlers of the database tool

    A shallow embedding of the Django views in [database_tool/views.py]
    and the properties of the query layer that can be read off them.

    The handlers are embedded as programs of a small state-and-exception
    monad.  The state holds what a request can change or observe (saved
    connections, the query history, the session, flash messages) and a
    trace of the calls made on dialect adapters.  Everything the module
    imports ([database_connectors], [pandas], the forms) is a field of
    the [World] record: a handler is verified for every behaviour of
    these collaborators. *)

From Stdlib Require Import ZArith Ascii String DecimalString DecimalZ.
From stdpp Require Import base option list sorting gmap strings.

Local Open Scope Z_scope.

(** ** Python values and exceptions *)

Module Py.

(** The scalar values that reach the handlers through form data. *)
Inductive pyval :=
| PNone
| PBool (b : bool)
| PInt (z : Z)
| PStr (s : string).

#[global] Instance pyval_eq_dec : EqDecision pyval.
Proof. solve_decision. Defined.

(** [bool(v)]: None, False, 0 and the empty string are falsy. *)
Definition truthy (v : pyval) : bool :=
  match v with
  | PNone => false
  | PBool b => b
  | PInt z => negb (Z.eqb z 0)
  | PStr s => negb (String.eqb s EmptyString)
  end.

(** [str(n)] for an int: the decimal numeral, with a minus sign. *)
Definition str_int (z : Z) : string := NilZero.string_of_int (Z.to_int z).

(** What an f-string writes for a replacement field [{v}]. *)
Definition format (v : pyval) : string :=
  match v with
  | PNone => "None"
  | PBool true => "True"
  | PBool false => "False"
  | PInt z => str_int z
  | PStr s => s
  end.

(** [v == s] for a string literal [s]. *)
Definition eq_str (v : pyval) (s : string) : bool :=
  match v with
  | PStr t => String.eqb t s
  | _ => false
  end.

(** [a or b]. *)
Definition or_ (a b : pyval) : pyval := if truthy a then a else b.

(** [d.get(k, default)] *)
Definition dict_get (d : gmap string pyval) (k : string) (default : pyval) : pyval :=
  match d !! k with
  | Some v => v
  | None => default
  end.

(** The exception classes that occur, and [issubclass]. *)
Inductive exn_class :=
| Exception
| TypeError
| ValueError
| KeyError
| NameError
| UnboundLocalError
| AttributeError
| Http404
| LibraryError (name : string).

#[global] Instance exn_class_eq_dec : EqDecision exn_class.
Proof. solve_decision. Defined.

(** The direct base class; [Exception] is the root of what
    [except Exception] catches. *)
Definition base_class (c : exn_class) : option exn_class :=
  match c with
  | Exception => None
  | UnboundLocalError => Some NameError
  | _ => Some Exception
  end.

Definition issubclass (c d : exn_class) : bool :=
  bool_decide (c = d)
  || match base_class c with
     | Some b => bool_decide (b = d)
                 || match base_class b with
                    | Some b' => bool_decide (b' = d)
                    | None => false
                    end
     | None => false
     end.

(** An exception object: its class and [str(e)]. *)
Record exn := Exn { exn_cls : exn_class; exn_str : string }.

Definition isinstance (e : exn) (c : exn_class) : bool := issubclass (exn_cls e) c.

End Py.
Import Py.

(** ** Canned queries (query_table, lines 161-186) *)

(** The double-quote character, as a one-character string. *)
Definition dquote : string := String (ascii_of_nat 34) EmptyString.

(** Lines 165-170: the statement for "all rows", by [connection.db_type]. *)
Definition select_all_sql (db_type : string) (table_name : pyval) : string :=
  if String.eqb db_type "sqlite" then
    "SELECT * FROM [" +:+ format table_name +:+ "]"
  else if String.eqb db_type "postgresql" then
    "SELECT * FROM " +:+ dquote +:+ format table_name +:+ dquote
  else
    "SELECT * FROM `" +:+ format table_name +:+ "`".

(** Lines 177-182: the statement for one page of rows. *)
Definition select_page_sql (db_type : string) (table_name limit offset : pyval) : string :=
  if String.eqb db_type "sqlite" then
    "SELECT * FROM [" +:+ format table_name +:+ "] LIMIT " +:+ format limit
      +:+ " OFFSET " +:+ format offset
  else if String.eqb db_type "postgresql" then
    "SELECT * FROM " +:+ dquote +:+ format table_name +:+ dquote +:+ " LIMIT "
      +:+ format limit +:+ " OFFSET " +:+ format offset
  else
    "SELECT * FROM `" +:+ format table_name +:+ "` LIMIT " +:+ format limit
      +:+ " OFFSET " +:+ format offset.

(** Lines 161-186: [query] after the three-way choice on [query_type];
    [PNone] when no branch applies. *)
Definition build_query (db_type : string) (query_type table_name : pyval)
    (cleaned_data : gmap string pyval) : pyval :=
  if eq_str query_type "all" && truthy table_name then
    PStr (select_all_sql db_type table_name)
  else if eq_str query_type "limit" && truthy table_name then
    let limit := dict_get cleaned_data "limit_rows" (PInt 1000) in
    let offset := dict_get cleaned_data "offset_rows" (PInt 0) in
    PStr (select_page_sql db_type table_name limit offset)
  else if eq_str query_type "custom" then
    dict_get cleaned_data "custom_query" PNone
  else PNone.

(** ** Models, forms and result tables *)

Record User := { user_id : Z; is_authenticated : bool }.

#[global] Instance User_eq_dec : EqDecision User.
Proof. solve_decision. Defined.

(** A row of the [DatabaseConnection] model; [conn_id] is [None] until
    the row has been saved. *)
Record DatabaseConnection := {
  conn_id : option Z;
  conn_user : User;
  conn_name : string;
  conn_db_type : string
}.

(** A row of the [QueryHistory] model, as [objects.create] receives it. *)
Record QueryHistory := {
  qh_user : User;
  qh_connection : DatabaseConnection;
  qh_query : pyval;
  qh_success : bool;
  qh_error_message : option string
}.

(** A cell of a result table.  A float is carried as its bit pattern and
    never computed with. *)
Inductive cell :=
| CNull
| CInt (z : Z)
| CText (s : string)
| CReal (bits : Z).

(** A [pandas.DataFrame] with the default row index: column labels and
    rows in order. *)
Record DataFrame := { df_columns : list string; df_rows : list (list cell) }.

Definition df_len (df : DataFrame) : nat := length (df_rows df).

(** [df.head(n)] for [n >= 0]. *)
Definition df_head (n : nat) (df : DataFrame) : DataFrame :=
  {| df_columns := df_columns df; df_rows := take n (df_rows df) |}.

(** A dict as Python keeps it: keys in insertion order, a later value for
    a key replaces the earlier one in place. *)
Fixpoint dict_set {V} (k : string) (v : V) (d : list (string * V)) : list (string * V) :=
  match d with
  | [] => [(k, v)]
  | (k', v') :: d' => if String.eqb k' k then (k, v) :: d' else (k', v') :: dict_set k v d'
  end.

Definition dict_of_pairs {V} (kvs : list (string * V)) : list (string * V) :=
  foldl (fun d kv => dict_set kv.1 kv.2 d) [] kvs.

(** [df.to_dict('records')]: one dict per row, [dict(zip(columns, row))]. *)
Definition to_dict_records (df : DataFrame) : list (list (string * cell)) :=
  map (fun row => dict_of_pairs (zip (df_columns df) row)) (df_rows df).

(** The [result] entry of the query_result context (lines 206-211). *)
Record result_data := {
  rd_columns : list string;
  rd_data : list (list (string * cell));
  rd_total_rows : nat;
  rd_display_rows : nat
}.

Definition make_result_data (result_df : DataFrame) : result_data :=
  {| rd_columns := df_columns result_df;
     rd_data := to_dict_records (df_head 100 result_df);
     rd_total_rows := df_len result_df;
     rd_display_rows := Nat.min (df_len result_df) 100 |}.

(** What [request.session] holds for a finished query (lines 214-218). *)
Record session_entry := {
  se_query : pyval;
  se_data : string;
  se_connection_name : string
}.

(** [QueryForm]: unbound for [QueryForm()], else bound to the POST data
    with the outcome of [is_valid()], [cleaned_data] and its [str]. *)
Record QueryForm := {
  qf_bound : bool;
  qf_is_valid : bool;
  qf_cleaned_data : gmap string pyval;
  qf_cleaned_str : string;
  qf_table_choices : option (list (string * string))
}.

Definition unbound_query_form : QueryForm :=
  {| qf_bound := false; qf_is_valid := false; qf_cleaned_data := ∅;
     qf_cleaned_str := "{}"; qf_table_choices := None |}.

(** [DatabaseConnectionForm]: the outcome of [is_valid()] and the field
    values that [save(commit=False)] writes to the instance. *)
Record ConnectionForm := {
  cf_is_valid : bool;
  cf_name : string;
  cf_db_type : string
}.

Record Request := {
  method : string;
  user : User;
  post_query_form : QueryForm;
  post_connection_form : ConnectionForm;
  post_format : option string
}.

(** Column metadata returned by [get_table_info]; opaque to the views. *)
Record TableInfo := { ti_columns : list (string * string); ti_row_count : Z }.

Inductive context :=
| CtxEditConnection (form : ConnectionForm) (connection : DatabaseConnection)
| CtxConnectionDetail (connection : DatabaseConnection) (tables : list string)
    (connection_status : bool) (table_count : nat)
| CtxTableDetail (connection : DatabaseConnection) (table_name : string)
    (table_info : TableInfo) (sample_data : DataFrame)
| CtxQueryResult (connection : DatabaseConnection) (form : QueryForm)
    (result : result_data) (query : pyval) (can_download : bool)
| CtxQueryForm (connection : DatabaseConnection) (form : QueryForm) (tables : list string).

(** The body of a download: the table written without its index. *)
Inductive export :=
| CsvOf (df : DataFrame)
| ExcelOf (sheet_name : string) (df : DataFrame).

Inductive response :=
| Render (template : string) (ctx : context)
| Redirect (to : string) (arg : option Z)
| Attachment (content_type filename : string) (body : export)
| ReturnsNone.

Inductive level := LSuccess | LError.

(** Calls made on dialect adapters; [k] numbers the adapters of a request
    in order of creation. *)
Inductive event :=
| EvCreate (k : nat)
| EvConnect (k : nat)
| EvDisconnect (k : nat)
| EvGetTables (k : nat)
| EvGetTableInfo (k : nat) (table_name : string)
| EvGetTableData (k : nat) (table_name : string)
| EvValidate (k : nat) (query : pyval)
| EvExecute (k : nat) (query : pyval).

#[global] Instance event_eq_dec : EqDecision event.
Proof. solve_decision. Defined.

(** ** The monad of a request: state and exceptions *)

Record State := {
  connections : list DatabaseConnection;
  history : list QueryHistory;
  session : gmap string session_entry;
  flashed : list (level * string);
  trace : list event;
  adapters : nat
}.

Inductive outcome (A : Type) :=
| Returns (a : A)
| Raises (e : exn).
Arguments Returns {A} a.
Arguments Raises {A} e.

Definition M (A : Type) : Type := State -> outcome A * State.

#[global] Instance M_ret : MRet M := fun A a s => (Returns a, s).

#[global] Instance M_bind : MBind M := fun A B f m s =>
  match m s with
  | (Returns a, s') => f a s'
  | (Raises e, s') => (Raises e, s')
  end.

Definition raise {A} (e : exn) : M A := fun s => (Raises e, s).

(** [try: body  except Exception as e: handler e]; also the bare
    [except:], since every class of the model derives from [Exception].
    What the body did to the state before raising stays done. *)
Definition try_except {A} (body : M A) (handler : exn -> M A) : M A := fun s =>
  match body s with
  | (Returns a, s') => (Returns a, s')
  | (Raises e, s') => handler e s'
  end.

(** The outcome of an external call, as a step of the request. *)
Definition lift {A} (r : outcome A) : M A := fun s => (r, s).

Definition log (ev : event) : M unit := fun s =>
  (Returns (),
   {| connections := connections s; history := history s; session := session s;
      flashed := flashed s; trace := trace s ++ [ev]; adapters := adapters s |}).

Definition fresh_adapter : M nat := fun s =>
  (Returns (adapters s),
   {| connections := connections s; history := history s; session := session s;
      flashed := flashed s; trace := trace s; adapters := S (adapters s) |}).

(** [messages.success] and [messages.error]. *)
Definition messages_add (l : level) (text : string) : M unit := fun s =>
  (Returns (),
   {| connections := connections s; history := history s; session := session s;
      flashed := flashed s ++ [(l, text)]; trace := trace s; adapters := adapters s |}).

(** [QueryHistory.objects.create(...)]: a new row at the end of the table. *)
Definition QueryHistory_create (r : QueryHistory) : M unit := fun s =>
  (Returns (),
   {| connections := connections s; history := history s ++ [r]; session := session s;
      flashed := flashed s; trace := trace s; adapters := adapters s |}).

(** [request.session[key] = entry] *)
Definition session_set (key : string) (entry : session_entry) : M unit := fun s =>
  (Returns (),
   {| connections := connections s; history := history s;
      session := <[key := entry]> (session s);
      flashed := flashed s; trace := trace s; adapters := adapters s |}).

Definition session_get (key : string) : M (option session_entry) := fun s =>
  (Returns (session s !! key), s).

(** The primary key given to a new row: one more than the largest. *)
Definition next_id (cs : list DatabaseConnection) : Z :=
  1 + foldr (fun c acc => Z.max (default 0 (conn_id c)) acc) 0 cs.

(** [connection.save()]: insert a row without a key, else update the row
    with that key (insert it when there is none). *)
Fixpoint update_row (c : DatabaseConnection) (cs : list DatabaseConnection)
    : list DatabaseConnection :=
  match cs with
  | [] => [c]
  | c' :: cs' => if bool_decide (conn_id c' = conn_id c) then c :: cs'
                 else c' :: update_row c cs'
  end.

Definition save_rows (c : DatabaseConnection) (cs : list DatabaseConnection)
    : list DatabaseConnection :=
  match conn_id c with
  | None => cs ++ [{| conn_id := Some (next_id cs); conn_user := conn_user c;
                      conn_name := conn_name c; conn_db_type := conn_db_type c |}]
  | Some _ => update_row c cs
  end.

Definition connection_save (c : DatabaseConnection) : M unit := fun s =>
  (Returns (),
   {| connections := save_rows c (connections s); history := history s;
      session := session s; flashed := flashed s; trace := trace s;
      adapters := adapters s |}).

(** The row with the given key that belongs to the given user. *)
Definition owned_connection (connection_id : Z) (u : User) (cs : list DatabaseConnection)
    : option DatabaseConnection :=
  List.find (fun c => bool_decide (conn_id c = Some connection_id)
                      && bool_decide (conn_user c = u)) cs.

(** [get_object_or_404(DatabaseConnection, id=connection_id, user=u)] *)
Definition get_object_or_404 (connection_id : Z) (u : User) : M DatabaseConnection := fun s =>
  match owned_connection connection_id u (connections s) with
  | Some c => (Returns c, s)
  | None => (Raises (Exn Http404 "No DatabaseConnection matches the given query."), s)
  end.

(** [d[k]] on [cleaned_data]. *)
Definition dict_index (d : gmap string pyval) (k : string) : M pyval :=
  match d !! k with
  | Some v => mret v
  | None => raise (Exn KeyError ("'" +:+ k +:+ "'"))
  end.

(** Reading a local variable that may not have been assigned yet. *)
Definition read_local {A} (name : string) (v : option A) : M A :=
  match v with
  | Some a => mret a
  | None => raise (Exn UnboundLocalError
      ("cannot access local variable '" +:+ name
         +:+ "' where it is not associated with a value"))
  end.

(** ** Collaborators

    The behaviour of everything imported by the module and not defined
    in it.  An adapter is identified by its creation number. *)
Record World := {
  w_create : nat -> DatabaseConnection -> outcome unit;
  w_connect : nat -> outcome bool;
  w_disconnect : nat -> outcome unit;
  w_get_tables : nat -> outcome (list string);
  w_get_table_info : nat -> string -> outcome TableInfo;
  w_get_table_data : nat -> string -> Z -> option Z -> outcome DataFrame;
  w_validate_query : nat -> pyval -> outcome (bool * string);
  w_execute_query : nat -> pyval -> outcome DataFrame;
  (** [database_connectors.test_connection] *)
  w_test_connection : DatabaseConnection -> outcome (bool * string);
  (** [DataFrame.to_json()] and [pandas.read_json] *)
  w_to_json : DataFrame -> outcome string;
  w_read_json : string -> outcome DataFrame;
  (** [DataFrame.to_csv(response, index=False)], and the [ExcelWriter]
      block with [to_excel(writer, sheet_name=..., index=False)]: each
      writes the file or raises *)
  w_to_csv : DataFrame -> outcome unit;
  w_to_excel : string -> DataFrame -> outcome unit;
  (** A one-parameter view of this module called as a plain function on a
      connection, its result unpacked as a pair.  No call in the module
      reaches this. *)
  w_view_on_connection : string -> DatabaseConnection -> outcome (bool * string)
}.

Module Connector.
Section Methods.
Context (w : World).

Definition create_database_connector (connection : DatabaseConnection) : M nat :=
  k ← fresh_adapter; log (EvCreate k);; lift (w_create w k connection);; mret k.

Definition connect (k : nat) : M bool :=
  log (EvConnect k);; lift (w_connect w k).

Definition disconnect (k : nat) : M unit :=
  log (EvDisconnect k);; lift (w_disconnect w k).

Definition get_tables (k : nat) : M (list string) :=
  log (EvGetTables k);; lift (w_get_tables w k).

Definition get_table_info (k : nat) (table_name : string) : M TableInfo :=
  log (EvGetTableInfo k table_name);; lift (w_get_table_info w k table_name).

Definition get_table_data (k : nat) (table_name : string) (limit : Z) (offset : option Z)
    : M DataFrame :=
  log (EvGetTableData k table_name);; lift (w_get_table_data w k table_name limit offset).

Definition validate_query (k : nat) (query : pyval) : M (bool * string) :=
  log (EvValidate k query);; lift (w_validate_query w k query).

Definition execute_query (k : nat) (query : pyval) : M DataFrame :=
  log (EvExecute k query);; lift (w_execute_query w k query).

End Methods.
End Connector.

(** ** Module globals

    The names bound at module level, in the order the module binds
    them: the [from .database_connectors import ...] of line 17, then
    each decorated [def].  A later binding of a name replaces the
    earlier one; a call inside a function body looks the name up when
    the call runs, so it sees the last binding. *)

Inductive callable :=
| ImportedCreateConnector
| ImportedTestConnection
| ViewFunction (name : string) (params : list string)
| LoginRequired (view_func : callable)
| RequireHttpMethods (methods : list string) (view_func : callable)
| CsrfExempt (view_func : callable).

Definition module_bindings : list (string * callable) :=
  [ ("create_database_connector", ImportedCreateConnector);
    ("test_connection", ImportedTestConnection);
    ("dashboard", LoginRequired (ViewFunction "dashboard" ["request"]));
    ("add_connection", LoginRequired (ViewFunction "add_connection" ["request"]));
    ("delete_connection",
      LoginRequired (ViewFunction "delete_connection" ["request"; "connection_id"]));
    ("test_connection",
      LoginRequired (ViewFunction "test_connection" ["request"; "connection_id"]));
    ("connection_detail",
      LoginRequired (ViewFunction "connection_detail" ["request"; "connection_id"]));
    ("table_detail",
      LoginRequired (ViewFunction "table_detail" ["request"; "connection_id"; "table_name"]));
    ("query_table",
      LoginRequired (RequireHttpMethods ["GET"; "POST"]
        (ViewFunction "query_table" ["request"; "connection_id"])));
    ("download_query_result",
      LoginRequired (ViewFunction "download_query_result" ["request"; "connection_id"]));
    ("api_get_tables",
      LoginRequired (CsrfExempt (ViewFunction "api_get_tables" ["request"; "connection_id"])));
    ("api_get_table_info",
      LoginRequired (CsrfExempt
        (ViewFunction "api_get_table_info" ["request"; "connection_id"; "table_name"])));
    ("api_preview_table",
      LoginRequired (CsrfExempt
        (ViewFunction "api_preview_table" ["request"; "connection_id"; "table_name"])));
    ("api_validate_query",
      LoginRequired (CsrfExempt (ViewFunction "api_validate_query" ["request"])));
    ("edit_connection",
      LoginRequired (ViewFunction "edit_connection" ["request"; "connection_id"])) ].

Definition module_globals : gmap string callable :=
  foldl (fun g b => <[b.1 := b.2]> g) ∅ module_bindings.

(** The names in a TypeError for missing arguments: ['a'], ['a' and 'b'],
    ['a', 'b', and 'c']. *)
Fixpoint quoted_names (names : list string) : string :=
  match names with
  | [] => EmptyString
  | [a] => "'" +:+ a +:+ "'"
  | [a; b] => "'" +:+ a +:+ "' and '" +:+ b +:+ "'"
  | a :: rest => "'" +:+ a +:+ "', " +:+
      match rest with
      | [b; c] => "'" +:+ b +:+ "', and '" +:+ c +:+ "'"
      | _ => quoted_names rest
      end
  end.

(** Binding [nargs] positional arguments to the parameters of a plain
    function; Python does this before the body runs. *)
Definition bind_arguments (name : string) (params : list string) (nargs : nat) : outcome unit :=
  let n := length params in
  if (nargs <? n)%nat then
    Raises (Exn TypeError
      (name +:+ "() missing " +:+ str_int (Z.of_nat (n - nargs))
         +:+ " required positional argument"
         +:+ (if (n - nargs =? 1)%nat then EmptyString else "s")
         +:+ ": " +:+ quoted_names (drop nargs params)))
  else if (n <? nargs)%nat then
    Raises (Exn TypeError
      (name +:+ "() takes " +:+ str_int (Z.of_nat n) +:+ " positional argument"
         +:+ (if (n =? 1)%nat then EmptyString else "s")
         +:+ " but " +:+ str_int (Z.of_nat nargs)
         +:+ (if (nargs =? 1)%nat then " was given" else " were given")))
  else Returns ().

(** ** The views

    Each definition of this section is the function that a [def] of the
    module introduces, as it runs once its decorators have let the request
    through.  The decorated functions, which are what the module binds to
    the names and what a request reaches, are in [Module View] below. *)

Section Views.
Context (w : World).

(** [success, message = f(connection)]: one positional argument, a
    [DatabaseConnection], and the result unpacked as a pair.  The wrapper
    of [login_required] takes its first argument for the request and
    reads [.user.is_authenticated] from it; that of
    [require_http_methods] reads [.method]. *)
Fixpoint apply_to_connection (f : callable) (connection : DatabaseConnection)
    : M (bool * string) :=
  match f with
  | ImportedTestConnection => lift (w_test_connection w connection)
  | ImportedCreateConnector =>
      raise (Exn TypeError "cannot unpack non-iterable connector object")
  | LoginRequired view_func =>
      if is_authenticated (conn_user connection)
      then apply_to_connection view_func connection
      else raise (Exn AttributeError
             "'DatabaseConnection' object has no attribute 'build_absolute_uri'")
  | RequireHttpMethods _ _ =>
      raise (Exn AttributeError "'DatabaseConnection' object has no attribute 'method'")
  | CsrfExempt view_func => apply_to_connection view_func connection
  | ViewFunction name params =>
      lift (bind_arguments name params 1);;
      lift (w_view_on_connection w name connection)
  end.

(** A call [name(connection)] from inside a view: the name is not local,
    so it is looked up in the module globals. *)
Definition call_global (name : string) (connection : DatabaseConnection) : M (bool * string) :=
  match module_globals !! name with
  | Some f => apply_to_connection f connection
  | None => raise (Exn NameError ("name '" +:+ name +:+ "' is not defined"))
  end.

(** [form.save(commit=False)]: the form's instance with the posted
    fields; a form made without an instance has a new, unsaved one, whose
    user line 44 sets. *)
Definition form_instance (form : ConnectionForm) (pk : option Z) (u : User)
    : DatabaseConnection :=
  {| conn_id := pk; conn_user := u;
     conn_name := cf_name form; conn_db_type := cf_db_type form |}.

(** [DatabaseConnectionForm(instance=connection)] *)
Definition form_of_instance (connection : DatabaseConnection) : ConnectionForm :=
  {| cf_is_valid := false; cf_name := conn_name connection;
     cf_db_type := conn_db_type connection |}.

(** Lines 46-56 and 417-427: the test before saving.  [Some r] is a
    [return r] from inside the [try]. *)
Definition test_then_save (connection : DatabaseConnection)
    (saved_message : string) (on_saved : response) : M (option response) :=
  try_except
    ('(success, message) ← call_global "test_connection" connection;
     if success : bool then
       connection_save connection;;
       messages_add LSuccess saved_message;;
       mret (Some on_saved)
     else
       messages_add LError ("Connection test failed: " +:+ message);;
       mret None)
    (fun e =>
       messages_add LError ("Error testing connection: " +:+ exn_str e);;
       mret None).

(** Lines 37-60.  [connection] is a local of the function, assigned only
    at line 43. *)
Definition add_connection (request : Request) : M response :=
  '(form, connection, returned) ←
    (if String.eqb (method request) "POST" then
       let form := post_connection_form request in
       if cf_is_valid form then
         let connection := form_instance form None (user request) in
         r ← test_then_save connection
               ("Database connection " +:+ dquote +:+ conn_name connection +:+ dquote
                  +:+ " added successfully!")
               (Redirect "dashboard" None);
         mret (form, Some connection, r)
       else mret (form, None, None)
     else
       connection ← read_local "connection" (None : option DatabaseConnection);
       mret (form_of_instance connection, Some connection, None));
  match returned with
  | Some r => mret r
  | None =>
      connection ← read_local "connection" connection;
      mret (Render "database_tool/edit_connection.html" (CtxEditConnection form connection))
  end.

(** Lines 75-89. *)
Definition test_connection (request : Request) (connection_id : Z) : M response :=
  connection ← get_object_or_404 connection_id (user request);
  try_except
    ('(success, message) ← call_global "test_connection" connection;
     if success : bool then
       messages_add LSuccess ("Connection test successful: " +:+ message)
     else
       messages_add LError ("Connection test failed: " +:+ message))
    (fun e => messages_add LError ("Error testing connection: " +:+ exn_str e));;
  mret (Redirect "connection_detail" (Some connection_id)).

(** Lines 407-427.  The function ends after the [except] clause: a path
    that does not return the redirect returns [None]. *)
Definition edit_connection (request : Request) (connection_id : Z) : M response :=
  connection ← get_object_or_404 connection_id (user request);
  if String.eqb (method request) "POST" then
    let form := post_connection_form request in
    if cf_is_valid form then
      let connection := form_instance form (conn_id connection) (conn_user connection) in
      r ← test_then_save connection
            ("Connection " +:+ dquote +:+ conn_name connection +:+ dquote
               +:+ " updated successfully!")
            (Redirect "connection_detail" (conn_id connection));
      mret (default ReturnsNone r)
    else mret ReturnsNone
  else mret ReturnsNone.

(** Lines 91-115.  [tables] and [connection_status] keep what was
    assigned before an exception; [disconnect] is the last statement of
    the [try], so only its own failure can follow the assignments. *)
Definition connection_detail (request : Request) (connection_id : Z) : M response :=
  connection ← get_object_or_404 connection_id (user request);
  '(tables, connection_status) ←
    try_except
      (connector ← Connector.create_database_connector w connection;
       ok ← Connector.connect w connector;
       if ok : bool then
         tables ← Connector.get_tables w connector;
         try_except (Connector.disconnect w connector;; mret (tables, true))
           (fun e =>
              messages_add LError ("Error connecting to database: " +:+ exn_str e);;
              mret (tables, true))
       else
         Connector.disconnect w connector;; mret ([], false))
      (fun e =>
         messages_add LError ("Error connecting to database: " +:+ exn_str e);;
         mret ([], false));
  mret (Render "database_tool/connection_detail.html"
          (CtxConnectionDetail connection tables connection_status (length tables))).

(** Lines 117-144.  [Some r] is the [return] inside the [try]. *)
Definition table_detail (request : Request) (connection_id : Z) (table_name : string)
    : M response :=
  connection ← get_object_or_404 connection_id (user request);
  returned ←
    try_except
      (connector ← Connector.create_database_connector w connection;
       ok ← Connector.connect w connector;
       if ok : bool then
         table_info ← Connector.get_table_info w connector table_name;
         sample_data ← Connector.get_table_data w connector table_name 10 None;
         Connector.disconnect w connector;;
         mret (Some (Render "database_tool/table_detail.html"
                       (CtxTableDetail connection table_name table_info sample_data)))
       else
         messages_add LError "Could not connect to database";; mret None)
      (fun e =>
         messages_add LError ("Error fetching table details: " +:+ exn_str e);;
         mret None);
  match returned with
  | Some r => mret r
  | None => mret (Redirect "connection_detail" (Some connection_id))
  end.

(** The session key [f'query_result_{connection_id}']. *)
Definition session_key (connection_id : Z) : string :=
  "query_result_" +:+ str_int connection_id.

(** Lines 188-231: what is done with [query] once it is built. *)
Definition run_query (request : Request) (connection : DatabaseConnection)
    (connection_id : Z) (form : QueryForm) (connector : nat) (query : pyval)
    : M (option response) :=
  if truthy query then
    '(is_valid, message) ← Connector.validate_query w connector query;
    if negb is_valid then raise (Exn Exception message)
    else
      result_df ← Connector.execute_query w connector query;
      QueryHistory_create
        {| qh_user := user request; qh_connection := connection; qh_query := query;
           qh_success := true; qh_error_message := None |};;
      let result := make_result_data result_df in
      data ← lift (w_to_json w result_df);
      session_set (session_key connection_id)
        {| se_query := query; se_data := data; se_connection_name := conn_name connection |};;
      Connector.disconnect w connector;;
      mret (Some (Render "database_tool/query_result.html"
                    (CtxQueryResult connection form result query true)))
  else
    messages_add LError "No valid query to execute";; mret None.

(** Lines 235-245, the [except Exception as e] clause.  [query] is
    [None] here while the local [query] is unbound, which is what
    ['query' in locals()] tests. *)
Definition query_failed (request : Request) (connection : DatabaseConnection)
    (form : QueryForm) (query : option pyval) (e : exn) : M (option response) :=
  match query with
  | Some query =>
      QueryHistory_create
        {| qh_user := user request; qh_connection := connection;
           qh_query := or_ query (PStr (qf_cleaned_str form));
           qh_success := false; qh_error_message := Some (exn_str e) |}
  | None => mret ()
  end;;
  messages_add LError ("Query failed: " +:+ exn_str e);;
  mret None.

(** Lines 158-245.  The local [query] is bound at line 161, after
    [connect()] has returned true; nothing between there and line 188 can
    raise, so wherever the [try] raises with [query] bound, [query] has
    its final value. *)
Definition query_attempt (request : Request) (connection : DatabaseConnection)
    (connection_id : Z) (form : QueryForm) (query_type table_name : pyval)
    : M (option response) :=
  try_except
    (connector ← Connector.create_database_connector w connection;
     ok ← Connector.connect w connector;
     if ok : bool then
       let query := build_query (conn_db_type connection) query_type table_name
                      (qf_cleaned_data form) in
       try_except (run_query request connection connection_id form connector query)
         (query_failed request connection form (Some query))
     else raise (Exn Exception "Could not connect to database"))
    (query_failed request connection form None).

(** Lines 249-257: the table names for the dropdown, from an adapter of
    its own.  All exceptions are swallowed; [tables] keeps what was
    assigned before one. *)
Definition dropdown_tables (connection : DatabaseConnection) : M (list string) :=
  try_except
    (connector ← Connector.create_database_connector w connection;
     ok ← Connector.connect w connector;
     if ok : bool then
       tables ← Connector.get_tables w connector;
       try_except (Connector.disconnect w connector;; mret tables) (fun _ => mret tables)
     else
       Connector.disconnect w connector;; mret [])
    (fun _ => mret []).

(** Line 261: the choices of the table dropdown. *)
Definition with_table_choices (form : QueryForm) (tables : list string) : QueryForm :=
  match tables with
  | [] => form
  | _ =>
    {| qf_bound := qf_bound form; qf_is_valid := qf_is_valid form;
       qf_cleaned_data := qf_cleaned_data form; qf_cleaned_str := qf_cleaned_str form;
       qf_table_choices :=
         Some ((EmptyString, "--- Select Table ---") :: map (fun t => (t, t)) tables) |}
  end.

(** Lines 146-268. *)
Definition query_table (request : Request) (connection_id : Z) : M response :=
  connection ← get_object_or_404 connection_id (user request);
  '(form, returned) ←
    (if String.eqb (method request) "POST" then
       let form := post_query_form request in
       if qf_is_valid form then
         query_type ← dict_index (qf_cleaned_data form) "query_type";
         let table_name := dict_get (qf_cleaned_data form) "table_name" PNone in
         r ← query_attempt request connection connection_id form query_type table_name;
         mret (form, r)
       else mret (form, None)
     else mret (unbound_query_form, None));
  match returned with
  | Some r => mret r
  | None =>
      tables ← dropdown_tables connection;
      mret (Render "database_tool/query_form.html"
              (CtxQueryForm connection (with_table_choices form tables) tables))
  end.

(** Lines 270-310. *)
Definition download_query_result (request : Request) (connection_id : Z) : M response :=
  returned ←
    (if String.eqb (method request) "POST" then
       let format_type := default "csv" (post_format request) in
       result_data ← session_get (session_key connection_id);
       match result_data with
       | Some result_data =>
           try_except
             (result_df ← lift (w_read_json w (se_data result_data));
              if String.eqb format_type "excel" then
                lift (w_to_excel w "Query Result" result_df);;
                mret (Some (Attachment
                  "application/vnd.openxmlformats-officedocument.spreadsheetml.sheet"
                  (se_connection_name result_data +:+ "_query_result.xlsx")
                  (ExcelOf "Query Result" result_df)))
              else
                lift (w_to_csv w result_df);;
                mret (Some (Attachment "text/csv"
                  (se_connection_name result_data +:+ "_query_result.csv")
                  (CsvOf result_df))))
             (fun e => messages_add LError ("Download failed: " +:+ exn_str e);; mret None)
       | None =>
           messages_add LError "No query result found. Please run a query first.";;
           mret None
       end
     else mret None);
  match returned with
  | Some r => mret r
  | None => mret (Redirect "query_table" (Some connection_id))
  end.

End Views.

(** ** The validation policy *)

Module Validator.

Definition is_space (c : ascii) : bool :=
  let n := nat_of_ascii c in
  ((9 <=? n) && (n <=? 13))%nat || (n =? 32)%nat.

Definition is_letter (c : ascii) : bool :=
  let n := nat_of_ascii c in
  ((65 <=? n) && (n <=? 90))%nat || ((97 <=? n) && (n <=? 122))%nat.

Definition upper_char (c : ascii) : ascii :=
  let n := nat_of_ascii c in
  if ((97 <=? n) && (n <=? 122))%nat then ascii_of_nat (n - 32) else c.

Fixpoint upper (s : string) : string :=
  match s with
  | EmptyString => EmptyString
  | String c s' => String (upper_char c) (upper s')
  end.

Fixpoint lstrip (s : string) : string :=
  match s with
  | EmptyString => EmptyString
  | String c s' => if is_space c then lstrip s' else s
  end.

Fixpoint blank (s : string) : bool :=
  match s with
  | EmptyString => true
  | String c s' => is_space c && blank s'
  end.

(** The run of letters a string starts with. *)
Fixpoint leading_word (s : string) : string :=
  match s with
  | EmptyString => EmptyString
  | String c s' => if is_letter c then String c (leading_word s') else EmptyString
  end.

(** Modelled from the spec: the "normalized leading keyword" of the
    validation policy, which database_connectors computes and the sources
    do not show: leading whitespace dropped, the first word in upper
    case; none for blank input. *)
Definition leading_keyword (sql : string) : option string :=
  if blank sql then None else Some (upper (leading_word (lstrip sql))).

(** Modelled from the spec: the policy's "statement separator followed by
    further non-whitespace content", a [;] with something other than
    whitespace after it. *)
Fixpoint stacked (s : string) : bool :=
  match s with
  | EmptyString => false
  | String c s' => (Ascii.eqb c ";" && negb (blank s')) || stacked s'
  end.

(** Modelled from the spec: [validate_query] is a method of the adapters
    in database_connectors, which is not among the sources; the views
    only call it.  The four rules of the validation policy, in the order
    the spec lists them. *)
Definition validate_query (sql : string) : bool * string :=
  match leading_keyword sql with
  | None => (false, "empty query")
  | Some keyword =>
      if negb (String.eqb keyword "SELECT") then
        (false, "forbidden operation: " +:+ keyword)
      else if stacked sql then (false, "multiple statements not allowed")
      else (true, "ok")
  end.

(** A message names an operation when the operation's keyword occurs in it. *)
Definition names (message keyword : string) : Prop :=
  exists before after, message = before +:+ keyword +:+ after.

End Validator.

(** ** Scripted collaborators

    Worlds in which every call of one kind has one fixed outcome; they
    serve as concrete inputs. *)

Definition alice : User := {| user_id := 1; is_authenticated := true |}.

Definition shop : DatabaseConnection :=
  {| conn_id := Some 7; conn_user := alice; conn_name := "shop"; conn_db_type := "sqlite" |}.

Definition initial : State :=
  {| connections := [shop]; history := []; session := ∅; flashed := [];
     trace := []; adapters := 0 |}.

(** The adapter applies the validation policy to a query string. *)
Definition policy (query : pyval) : outcome (bool * string) :=
  match query with
  | PStr sql => Returns (Validator.validate_query sql)
  | _ => Raises (Exn AttributeError "object has no attribute 'strip'")
  end.

Definition scripted (connected : bool) (info : outcome TableInfo)
    (executed : outcome DataFrame) (json : outcome string) (tested : outcome (bool * string))
    : World :=
  {| w_create := fun _ _ => Returns ();
     w_connect := fun _ => Returns connected;
     w_disconnect := fun _ => Returns ();
     w_get_tables := fun _ => Returns ["orders"; "customers"];
     w_get_table_info := fun _ _ => info;
     w_get_table_data := fun _ _ _ _ => executed;
     w_validate_query := fun _ => policy;
     w_execute_query := fun _ _ => executed;
     w_test_connection := fun _ => tested;
     w_to_json := fun _ => json;
     w_read_json := fun _ => executed;
     w_to_csv := fun _ => Returns ();
     w_to_excel := fun _ _ => Returns ();
     w_view_on_connection := fun _ _ => Raises (Exn TypeError "not a request") |}.

Definition orders_info : TableInfo :=
  {| ti_columns := [("id", "INTEGER"); ("item", "TEXT")]; ti_row_count := 2 |}.

Definition orders : DataFrame :=
  {| df_columns := ["id"; "item"];
     df_rows := [[CInt 1; CText "tea"]; [CInt 2; CText "milk"]] |}.

(** The result of [SELECT 1 AS a, 2 AS a]: two columns with one label. *)
Definition twice_a : DataFrame :=
  {| df_columns := ["a"; "a"]; df_rows := [[CInt 1; CInt 2]] |}.

Definition post_query (cleaned_data : gmap string pyval) : Request :=
  {| method := "POST"; user := alice;
     post_query_form :=
       {| qf_bound := true; qf_is_valid := true; qf_cleaned_data := cleaned_data;
          qf_cleaned_str := "{...}"; qf_table_choices := None |};
     post_connection_form := {| cf_is_valid := false; cf_name := "shop"; cf_db_type := "sqlite" |};
     post_format := None |}.

Definition custom (sql : string) : gmap string pyval :=
  <["query_type" := PStr "custom"]> (<["custom_query" := PStr sql]> ∅).

Definition get_request : Request :=
  {| method := "GET"; user := alice; post_query_form := unbound_query_form;
     post_connection_form := {| cf_is_valid := false; cf_name := "shop"; cf_db_type := "sqlite" |};
     post_format := None |}.

Definition post_connection (valid : bool) : Request :=
  {| method := "POST"; user := alice; post_query_form := unbound_query_form;
     post_connection_form := {| cf_is_valid := valid; cf_name := "depot"; cf_db_type := "mysql" |};
     post_format := None |}.

(** ** The other views: dashboard, delete_connection and the API *)

(** What models.py and Django's field conversion decide and views.py does
    not show. *)
Record Orm := {
  (** the rows of QueryHistory left after a connection is deleted (the
      [on_delete] of its foreign key) *)
  orm_on_delete : DatabaseConnection -> list QueryHistory -> list QueryHistory;
  (** the timestamps the dashboard orders by *)
  orm_updated_at : DatabaseConnection -> Z;
  orm_executed_at : QueryHistory -> Z;
  (** [int(text)], which converts a key given as a string *)
  orm_int : string -> outcome Z;
  (** the class of the exception for filtering or reordering a slice:
      TypeError since Django 4.0, AssertionError before *)
  orm_slice_error : exn_class
}.

(** A queryset: the rows it selects, in order, and the limit of a slice
    [[:n]] taken from it.  It is evaluated when listed or counted. *)
Record QuerySet (A : Type) := { qs_rows : list A; qs_limit : option nat }.
Arguments qs_rows {A} q.
Arguments qs_limit {A} q.

Definition qs_all {A} (rows : list A) : QuerySet A :=
  {| qs_rows := rows; qs_limit := None |}.

(** [qs.filter(...)]: refused once a slice has been taken. *)
Definition qs_filter {A} (slice_error : exn_class) (p : A -> bool) (qs : QuerySet A)
    : outcome (QuerySet A) :=
  match qs_limit qs with
  | Some _ => Raises (Exn slice_error "Cannot filter a query once a slice has been taken.")
  | None => Returns {| qs_rows := List.filter p (qs_rows qs); qs_limit := None |}
  end.

(** The order of [order_by('-field')]: the larger key first. *)
Definition newer {A} (key : A -> Z) (a b : A) : Prop := key b <= key a.

#[global] Instance newer_dec {A} (key : A -> Z) : RelDecision (newer key).
Proof. intros a b. unfold newer. apply _. Defined.

(** [qs.order_by('-field')]: descending by the key; refused after a slice. *)
Definition qs_order_by_desc {A} (slice_error : exn_class) (key : A -> Z) (qs : QuerySet A)
    : outcome (QuerySet A) :=
  match qs_limit qs with
  | Some _ => Raises (Exn slice_error "Cannot reorder a query once a slice has been taken.")
  | None =>
      Returns {| qs_rows := merge_sort (newer key) (qs_rows qs);
                 qs_limit := None |}
  end.

(** [qs[:n]] *)
Definition qs_slice {A} (n : nat) (qs : QuerySet A) : QuerySet A :=
  {| qs_rows := qs_rows qs;
     qs_limit := Some (match qs_limit qs with Some m => Nat.min m n | None => n end) |}.

Definition qs_list {A} (qs : QuerySet A) : list A :=
  match qs_limit qs with
  | Some n => take n (qs_rows qs)
  | None => qs_rows qs
  end.

(** [qs.count()] *)
Definition qs_count {A} (qs : QuerySet A) : nat := length (qs_list qs).

(** The body of a [JsonResponse]; [success] is false for an error body. *)
Inductive api_body :=
| ApiTables (tables : list string)
| ApiTableInfo (table_info : TableInfo)
| ApiPreview (columns : list string) (data : list (list (string * cell))) (row_count : nat)
| ApiValid (valid : bool) (message : string)
| ApiError (error : string).

Definition api_success (body : api_body) : bool :=
  match body with
  | ApiError _ => false
  | _ => true
  end.

Inductive page_context :=
| CtxDashboard (connections : list DatabaseConnection) (recent_queries : list QueryHistory)
    (total_connections successful_queries : nat)
| CtxDeleteConnection (connection : DatabaseConnection).

Inductive view_result :=
| Page (template : string) (ctx : page_context)
| RedirectTo (to : string)
| JsonResponse (body : api_body) (status : Z).

(** [json.loads(request.body)]: it raises, or gives an object, or gives a
    value of another type. *)
Inductive json_body :=
| BodyInvalid (e : exn)
| BodyObject (data : gmap string pyval)
| BodyOther (type_name : string).

(** A request to the API: the query parameters [limit] and [offset], each
    with what [int()] makes of it when present, and the parsed body. *)
Record ApiRequest := {
  api_http : Request;
  api_limit : option (outcome Z);
  api_offset : option (outcome Z);
  api_json : json_body
}.

Definition get_state : M State := fun s => (Returns s, s).

(** [connection.delete()]: the row with that key goes; what happens to
    the history rows that refer to it is the model's [on_delete]. *)
Definition connection_delete (o : Orm) (connection : DatabaseConnection) : M unit := fun s =>
  (Returns (),
   {| connections :=
        List.filter (fun c => negb (bool_decide (conn_id c = conn_id connection)))
          (connections s);
      history := orm_on_delete o connection (history s);
      session := session s; flashed := flashed s; trace := trace s;
      adapters := adapters s |}).

(** [get_object_or_404(DatabaseConnection, id=key, user=u)] for a key
    that comes from a JSON body. *)
Definition get_object_or_404_key (o : Orm) (key : pyval) (u : User) : M DatabaseConnection :=
  match key with
  | PNone => raise (Exn Http404 "No DatabaseConnection matches the given query.")
  | PInt z => get_object_or_404 z u
  | PBool b => get_object_or_404 (if b then 1 else 0) u
  | PStr text => z ← lift (orm_int o text); get_object_or_404 z u
  end.

Section MoreViews.
Context (w : World) (o : Orm).

(** Lines 19-35. *)
Definition dashboard (request : Request) : M view_result :=
  s ← get_state;
  owned ← lift (qs_filter (orm_slice_error o)
                  (fun c => bool_decide (conn_user c = user request))
                  (qs_all (connections s)));
  connections ← lift (qs_order_by_desc (orm_slice_error o) (orm_updated_at o) owned);
  own_queries ← lift (qs_filter (orm_slice_error o)
                        (fun r => bool_decide (qh_user r = user request))
                        (qs_all (history s)));
  ordered ← lift (qs_order_by_desc (orm_slice_error o) (orm_executed_at o) own_queries);
  let recent_queries := qs_slice 10 ordered in
  let total_connections := qs_count connections in
  successful ← lift (qs_filter (orm_slice_error o) qh_success recent_queries);
  let successful_queries := qs_count successful in
  mret (Page "database_tool/dashboard.html"
          (CtxDashboard (qs_list connections) (qs_list recent_queries)
             total_connections successful_queries)).

(** Lines 62-73. *)
Definition delete_connection (request : Request) (connection_id : Z) : M view_result :=
  connection ← get_object_or_404 connection_id (user request);
  if String.eqb (method request) "POST" then
    let connection_name := conn_name connection in
    connection_delete o connection;;
    messages_add LSuccess
      ("Connection " +:+ dquote +:+ connection_name +:+ dquote +:+ " deleted successfully!");;
    mret (RedirectTo "dashboard")
  else
    mret (Page "database_tool/delete_connection.html" (CtxDeleteConnection connection)).

(** The [except Exception as e] clause of the API views. *)
Definition api_error (e : exn) : M view_result :=
  mret (JsonResponse (ApiError (exn_str e)) 500).

Definition api_not_connected : view_result :=
  JsonResponse (ApiError "Could not connect to database") 400.

(** Lines 313-328. *)
Definition api_get_tables (request : ApiRequest) (connection_id : Z) : M view_result :=
  connection ← get_object_or_404 connection_id (user (api_http request));
  try_except
    (connector ← Connector.create_database_connector w connection;
     ok ← Connector.connect w connector;
     if ok : bool then
       tables ← Connector.get_tables w connector;
       Connector.disconnect w connector;;
       mret (JsonResponse (ApiTables tables) 200)
     else mret api_not_connected)
    api_error.

(** Lines 330-345. *)
Definition api_get_table_info (request : ApiRequest) (connection_id : Z)
    (table_name : string) : M view_result :=
  connection ← get_object_or_404 connection_id (user (api_http request));
  try_except
    (connector ← Connector.create_database_connector w connection;
     ok ← Connector.connect w connector;
     if ok : bool then
       table_info ← Connector.get_table_info w connector table_name;
       Connector.disconnect w connector;;
       mret (JsonResponse (ApiTableInfo table_info) 200)
     else mret api_not_connected)
    api_error.

(** Lines 347-372. *)
Definition api_preview_table (request : ApiRequest) (connection_id : Z)
    (table_name : string) : M view_result :=
  connection ← get_object_or_404 connection_id (user (api_http request));
  try_except
    (limit ← lift (default (Returns 10) (api_limit request));
     offset ← lift (default (Returns 0) (api_offset request));
     connector ← Connector.create_database_connector w connection;
     ok ← Connector.connect w connector;
     if ok : bool then
       preview_df ← Connector.get_table_data w connector table_name limit (Some offset);
       let data := ApiPreview (df_columns preview_df) (to_dict_records preview_df)
                     (df_len preview_df) in
       Connector.disconnect w connector;;
       mret (JsonResponse data 200)
     else mret api_not_connected)
    api_error.

(** Lines 374-398. *)
Definition api_validate_query (request : ApiRequest) : M view_result :=
  if String.eqb (method (api_http request)) "POST" then
    try_except
      (data ← match api_json request with
              | BodyInvalid e => raise e
              | BodyObject data => mret data
              | BodyOther type_name =>
                  raise (Exn AttributeError
                           ("'" +:+ type_name +:+ "' object has no attribute 'get'"))
              end;
       let query := dict_get data "query" (PStr EmptyString) in
       let connection_id := dict_get data "connection_id" PNone in
       connection ← get_object_or_404_key o connection_id (user (api_http request));
       connector ← Connector.create_database_connector w connection;
       '(is_valid, message) ← Connector.validate_query w connector query;
       mret (JsonResponse (ApiValid is_valid message) 200))
      api_error
  else mret (JsonResponse (ApiError "Invalid request method") 405).

End MoreViews.

(** ** The views as the module binds them

    What a request reaches is the decorated function.  [login_required]
    answers a request whose user is not logged in with the redirect to the
    login page and does not call the view; [require_http_methods] answers
    a request whose method is not in its list with 405 and does not call
    the view; [csrf_exempt] only marks the view. *)

(** The answer of a decorated view: what the function returned, or the
    answer of a decorator that did not call it. *)
Inductive served (R : Type) :=
| Passed (r : R)
| LoginRedirect
| NotAllowed (permitted_methods : list string).
Arguments Passed {R} r.
Arguments LoginRedirect {R}.
Arguments NotAllowed {R} permitted_methods.

Definition passed {R} (view : M R) : M (served R) := r ← view; mret (Passed r).

Definition login_required {R} (request : Request) (view : M (served R)) : M (served R) :=
  if is_authenticated (user request) then view else mret LoginRedirect.

Definition require_http_methods {R} (request_method_list : list string) (request : Request)
    (view : M (served R)) : M (served R) :=
  if bool_decide (method request ∈ request_method_list) then view
  else mret (NotAllowed request_method_list).

Definition csrf_exempt {R} (view : M (served R)) : M (served R) := view.

Module View.
Section Decorated.
Context (w : World) (o : Orm).

(** Lines 19-20. *)
Definition dashboard (request : Request) : M (served view_result) :=
  login_required request (passed (dashboard o request)).

(** Lines 37-38. *)
Definition add_connection (request : Request) : M (served response) :=
  login_required request (passed (add_connection w request)).

(** Lines 62-63. *)
Definition delete_connection (request : Request) (connection_id : Z)
    : M (served view_result) :=
  login_required request (passed (delete_connection o request connection_id)).

(** Lines 75-76. *)
Definition test_connection (request : Request) (connection_id : Z) : M (served response) :=
  login_required request (passed (test_connection w request connection_id)).

(** Lines 91-92. *)
Definition connection_detail (request : Request) (connection_id : Z) : M (served response) :=
  login_required request (passed (connection_detail w request connection_id)).

(** Lines 117-118. *)
Definition table_detail (request : Request) (connection_id : Z) (table_name : string)
    : M (served response) :=
  login_required request (passed (table_detail w request connection_id table_name)).

(** Lines 146-148. *)
Definition query_table (request : Request) (connection_id : Z) : M (served response) :=
  login_required request
    (require_http_methods ["GET"; "POST"] request
       (passed (query_table w request connection_id))).

(** Lines 270-271. *)
Definition download_query_result (request : Request) (connection_id : Z)
    : M (served response) :=
  login_required request (passed (download_query_result w request connection_id)).

(** Lines 313-315. *)
Definition api_get_tables (request : ApiRequest) (connection_id : Z)
    : M (served view_result) :=
  login_required (api_http request)
    (csrf_exempt (passed (api_get_tables w request connection_id))).

(** Lines 330-332. *)
Definition api_get_table_info (request : ApiRequest) (connection_id : Z)
    (table_name : string) : M (served view_result) :=
  login_required (api_http request)
    (csrf_exempt (passed (api_get_table_info w request connection_id table_name))).

(** Lines 347-349. *)
Definition api_preview_table (request : ApiRequest) (connection_id : Z)
    (table_name : string) : M (served view_result) :=
  login_required (api_http request)
    (csrf_exempt (passed (api_preview_table w request connection_id table_name))).

(** Lines 374-376. *)
Definition api_validate_query (request : ApiRequest) : M (served view_result) :=
  login_required (api_http request)
    (csrf_exempt (passed (api_validate_query w o request))).

(** Lines 407-408. *)
Definition edit_connection (request : Request) (connection_id : Z) : M (served response) :=
  login_required request (passed (edit_connection w request connection_id)).

End Decorated.
End View.

(** Inputs for the other views. *)
Definition plain_orm : Orm :=
  {| orm_on_delete := fun c rows =>
       List.filter (fun r => negb (bool_decide (conn_id (qh_connection r) = conn_id c))) rows;
     orm_updated_at := fun c => default 0 (conn_id c);
     orm_executed_at := fun _ => 0;
     orm_int := fun text =>
       match NilZero.int_of_string text with
       | Some d => Returns (Z.of_int d)
       | None => Raises (Exn ValueError
                   ("invalid literal for int() with base 10: '" +:+ text +:+ "'"))
       end;
     orm_slice_error := TypeError |}.

Definition bob : User := {| user_id := 2; is_authenticated := true |}.

Definition api_request (http_method : string) (u : User) (limit : option (outcome Z))
    (body : json_body) : ApiRequest :=
  {| api_http := {| method := http_method; user := u;
                    post_query_form := unbound_query_form;
                    post_connection_form :=
                      {| cf_is_valid := false; cf_name := "shop"; cf_db_type := "sqlite" |};
                    post_format := None |};
     api_limit := limit; api_offset := None; api_json := body |}.

(** Inputs for the decorated views: a visitor who is not logged in. *)
Definition anonymous : User := {| user_id := 0; is_authenticated := false |}.

Definition anonymous_request (http_method : string) : Request :=
  {| method := http_method; user := anonymous; post_query_form := unbound_query_form;
     post_connection_form := {| cf_is_valid := false; cf_name := "shop"; cf_db_type := "sqlite" |};
     post_format := None |}.

(** Inputs for the round trip of a result: a text column whose value
    reads as a number.  [to_json()] writes [{"code":{"0":"007"}}] for it,
    and [read_json] of that text gives the column the integer 7. *)
Definition codes : DataFrame :=
  {| df_columns := ["code"]; df_rows := [[CText "007"]] |}.

Definition codes_read_back : DataFrame :=
  {| df_columns := ["code"]; df_rows := [[CInt 7]] |}.

Definition codes_json : string :=
  "{" +:+ dquote +:+ "code" +:+ dquote +:+ ":{" +:+ dquote +:+ "0" +:+ dquote +:+ ":"
    +:+ dquote +:+ "007" +:+ dquote +:+ "}}".

(** A world in which every query returns [executed] and the two pandas
    calls answer as given. *)
Definition pandas_world (executed : DataFrame) (json : outcome string)
    (read_back : outcome DataFrame) : World :=
  let base := scripted true (Returns orders_info) (Returns executed) json
                (Returns (true, "ok")) in
  {| w_create := w_create base;
     w_connect := w_connect base;
     w_disconnect := w_disconnect base;
     w_get_tables := w_get_tables base;
     w_get_table_info := w_get_table_info base;
     w_get_table_data := w_get_table_data base;
     w_validate_query := w_validate_query base;
     w_execute_query := w_execute_query base;
     w_test_connection := w_test_connection base;
     w_to_json := w_to_json base;
     w_read_json := fun _ => read_back;
     w_to_csv := w_to_csv base;
     w_to_excel := w_to_excel base;
     w_view_on_connection := w_view_on_connection base |}.

(** ** Paths of a query request *)

(** The events a view added to the trace. *)
Definition emitted (s s' : State) : list event := drop (length (trace s)) (trace s').

(** No call of [validate_query] or [execute_query] among the events. *)
Definition quiet (evs : list event) : bool :=
  forallb (fun ev => match ev with
                     | EvValidate _ _ | EvExecute _ _ => false
                     | _ => true
                     end) evs.

(** The rows a request added to the history, each given by its query,
    success flag and error text. *)
Definition logged (request : Request) (s s' : State)
    (rows : list (pyval * bool * option string)) : Prop :=
  exists connection,
    history s' = history s ++
      map (fun row => {| qh_user := user request; qh_connection := connection;
                         qh_query := row.1.1; qh_success := row.1.2;
                         qh_error_message := row.2 |}) rows.

(** The ways a call of query_table can go, told by what the adapter
    answered: [r] is the result and [s'] the state after it. *)
Inductive query_path (w : World) (request : Request) (connection_id : Z) (s : State)
    (r : outcome response) (s' : State) : Prop :=
| path_no_attempt :
    quiet (emitted s s') = true ->
    history s' = history s ->
    session s' = session s ->
    query_path w request connection_id s r s'
| path_rejected (k : nat) (q : pyval) (message : string) (before after : list event) :
    emitted s s' = before ++ EvValidate k q :: after ->
    quiet before = true -> quiet after = true ->
    w_validate_query w k q = Returns (false, message) ->
    logged request s s' [(q, false, Some message)] ->
    (LError, "Query failed: " +:+ message) ∈ flashed s' ->
    session s' = session s ->
    query_path w request connection_id s r s'
| path_validation_raised (k : nat) (q : pyval) (e : exn) (before after : list event) :
    emitted s s' = before ++ EvValidate k q :: after ->
    quiet before = true -> quiet after = true ->
    w_validate_query w k q = Raises e ->
    logged request s s' [(q, false, Some (exn_str e))] ->
    session s' = session s ->
    query_path w request connection_id s r s'
| path_execution_raised (k : nat) (q : pyval) (message : string) (e : exn)
    (before after : list event) :
    emitted s s' = before ++ EvValidate k q :: EvExecute k q :: after ->
    quiet before = true -> quiet after = true ->
    w_validate_query w k q = Returns (true, message) ->
    w_execute_query w k q = Raises e ->
    logged request s s' [(q, false, Some (exn_str e))] ->
    session s' = session s ->
    query_path w request connection_id s r s'
| path_late_failure (k : nat) (q : pyval) (message : string) (result_df : DataFrame)
    (e : exn) (before after : list event) :
    emitted s s' = before ++ EvValidate k q :: EvExecute k q :: after ->
    quiet before = true -> quiet after = true ->
    w_validate_query w k q = Returns (true, message) ->
    w_execute_query w k q = Returns result_df ->
    w_to_json w result_df = Raises e
      \/ (exists data, w_to_json w result_df = Returns data) /\ w_disconnect w k = Raises e ->
    logged request s s' [(q, true, None); (q, false, Some (exn_str e))] ->
    query_path w request connection_id s r s'
| path_finished (k : nat) (q : pyval) (message : string) (result_df : DataFrame)
    (data : string) (connection : DatabaseConnection) (before : list event) :
    emitted s s' = before ++ [EvValidate k q; EvExecute k q; EvDisconnect k] ->
    quiet before = true ->
    w_validate_query w k q = Returns (true, message) ->
    w_execute_query w k q = Returns result_df ->
    w_to_json w result_df = Returns data ->
    logged request s s' [(q, true, None)] ->
    session s' = <[session_key connection_id :=
                     {| se_query := q; se_data := data;
                        se_connection_name := conn_name connection |}]> (session s) ->
    r = Returns (Render "database_tool/query_result.html"
                   (CtxQueryResult connection (post_query_form request)
                      (make_result_data result_df) q true)) ->
    query_path w request connection_id s r s'.

(** The exception of [get_object_or_404]. *)
Definition not_found : exn := Exn Http404 "No DatabaseConnection matches the given query.".


(** ** The name [test_connection]

    What the name is bound to once the module is loaded, and the
    exception a call with one argument meets. *)

Definition test_connection_view : callable :=
  LoginRequired (ViewFunction "test_connection" ["request"; "connection_id"]).

Definition missing_connection_id : exn :=
  Exn TypeError "test_connection() missing 1 required positional argument: 'connection_id'".

(** * Properties *)

(** ** Canned queries *)

Lemma truthy_str (t : string) : truthy (PStr t) = negb (String.eqb t EmptyString).
Proof. reflexivity. Qed.

(** The decimal numeral that [str] writes reads back as the integer. *)
Lemma str_int_reads_back (z : Z) :
  option_map Z.of_int (NilZero.int_of_string (str_int z)) = Some z.
Proof.
  unfold str_int.
  rewrite NilZero.isi.
  - simpl. f_equal. apply DecimalZ.of_to.
  - destruct z; simpl; try discriminate.
    intros [= H]. revert H. apply DecimalPos.Unsigned.to_uint_nonnil.
  - destruct z; simpl; try discriminate.
    intros [= H]. revert H. apply DecimalPos.Unsigned.to_uint_nonnil.
Qed.

(** C3: the "all rows" statement for a table name [t] is
    [SELECT * FROM [t]] for sqlite, [SELECT * FROM "t"] for postgresql
    and [SELECT * FROM `t`] for mysql, for every [t]; and this statement
    is the query that query_table builds for query type 'all', which it
    does for every table name but the empty one (line 163 tests
    [table_name]; without it there is no query at all). *)
Theorem select_all_quoting (t : string) :
  select_all_sql "sqlite" (PStr t) = "SELECT * FROM [" +:+ t +:+ "]"
  /\ select_all_sql "postgresql" (PStr t) = "SELECT * FROM " +:+ dquote +:+ t +:+ dquote
  /\ select_all_sql "mysql" (PStr t) = "SELECT * FROM `" +:+ t +:+ "`"
  /\ forall db_type cleaned_data,
       build_query db_type (PStr "all") (PStr t) cleaned_data
       = if String.eqb t EmptyString then PNone
         else PStr (select_all_sql db_type (PStr t)).
Proof.
  repeat split.
  intros db_type cleaned_data. unfold build_query.
  rewrite truthy_str. cbn [eq_str]. 
  destruct (String.eqb t EmptyString); reflexivity.
Qed.

(** The spec's example: the table [my table]. *)
Example select_all_my_table :
  build_query "sqlite" (PStr "all") (PStr "my table") ∅ = PStr "SELECT * FROM [my table]"
  /\ build_query "mysql" (PStr "all") (PStr "my table") ∅ = PStr "SELECT * FROM `my table`"
  /\ build_query "postgresql" (PStr "all") (PStr "my table") ∅
     = PStr ("SELECT * FROM " +:+ dquote +:+ "my table" +:+ dquote).
Proof. repeat split. Qed.

(** C4: the paginated statement for table [t], limit [L] and offset [O]
    is [SELECT * FROM <quoted t> LIMIT L OFFSET O] with the numbers in
    decimal, quoted with brackets for sqlite, double quotes for postgresql
    and backticks for mysql; query_table builds it for query type 'limit'
    from the form's [limit_rows] and [offset_rows], for every table name
    but the empty one. *)
Theorem select_page_quoting (t : string) (L O : Z) :
  select_page_sql "sqlite" (PStr t) (PInt L) (PInt O)
    = "SELECT * FROM [" +:+ t +:+ "] LIMIT " +:+ str_int L +:+ " OFFSET " +:+ str_int O
  /\ select_page_sql "postgresql" (PStr t) (PInt L) (PInt O)
    = "SELECT * FROM " +:+ dquote +:+ t +:+ dquote +:+ " LIMIT " +:+ str_int L
        +:+ " OFFSET " +:+ str_int O
  /\ select_page_sql "mysql" (PStr t) (PInt L) (PInt O)
    = "SELECT * FROM `" +:+ t +:+ "` LIMIT " +:+ str_int L +:+ " OFFSET " +:+ str_int O
  /\ option_map Z.of_int (NilZero.int_of_string (str_int L)) = Some L
  /\ option_map Z.of_int (NilZero.int_of_string (str_int O)) = Some O
  /\ forall db_type (cleaned_data : gmap string pyval),
       cleaned_data !! "limit_rows" = Some (PInt L) ->
       cleaned_data !! "offset_rows" = Some (PInt O) ->
       build_query db_type (PStr "limit") (PStr t) cleaned_data
       = if String.eqb t EmptyString then PNone
         else PStr (select_page_sql db_type (PStr t) (PInt L) (PInt O)).
Proof.
  split; [reflexivity|]. split; [reflexivity|]. split; [reflexivity|].
  split; [apply str_int_reads_back|]. split; [apply str_int_reads_back|].
  intros db_type cleaned_data HL HO. unfold build_query, dict_get.
  rewrite HL, HO, truthy_str. cbn [eq_str].
  destruct (String.eqb t EmptyString); reflexivity.
Qed.

Lemma select_page_quoting_witness :
  build_query "sqlite" (PStr "limit") (PStr "my table")
    (<["limit_rows" := PInt 25]> (<["offset_rows" := PInt 50]> ∅))
  = PStr "SELECT * FROM [my table] LIMIT 25 OFFSET 50".
Proof.
  destruct (select_page_quoting "my table" 25 50) as (_ & _ & _ & _ & _ & H).
  rewrite (H "sqlite"); [reflexivity | reflexivity | reflexivity].
Defined.

(** ** The preview of a result *)

Lemma take_min_length {A} (n : nat) (l : list A) : take n l = take (Nat.min (length l) n) l.
Proof.
  destruct (Nat.le_ge_cases n (length l)) as [H | H].
  - by rewrite Nat.min_r.
  - rewrite Nat.min_l by done. by rewrite !take_ge.
Qed.

(** C8: the preview holds the first min(total, 100) rows of the result,
    each as the record of its row and in the original order: entry [i]
    is row [i] for every [i] below that bound and there are no others;
    total_rows is the number of rows of the result and display_rows is
    min(total, 100). *)
Theorem preview_is_first_rows (result_df : DataFrame) :
  let result := make_result_data result_df in
  let total := length (df_rows result_df) in
  let record row := dict_of_pairs (zip (df_columns result_df) row) in
  rd_data result = map record (take (Nat.min total 100) (df_rows result_df))
  /\ length (rd_data result) = Nat.min total 100
  /\ (forall i : nat, (i < Nat.min total 100)%nat ->
        rd_data result !! i = record <$> (df_rows result_df !! i))
  /\ rd_total_rows result = total
  /\ rd_display_rows result = Nat.min total 100
  /\ rd_columns result = df_columns result_df.
Proof.
  cbn zeta. unfold make_result_data, to_dict_records, df_head, df_len. cbn [rd_data rd_total_rows rd_display_rows rd_columns df_columns df_rows].
  rewrite <- take_min_length.
  split; [done|]. split.
  { rewrite length_map, length_take. lia. }
  split; [|done].
  intros i Hi. rewrite list_lookup_fmap, lookup_take_lt by lia. done.
Qed.

Lemma preview_is_first_rows_witness :
  rd_data (make_result_data orders) !! 1%nat
  = Some [("id", CInt 2); ("item", CText "milk")].
Proof.
  destruct (preview_is_first_rows orders) as (_ & _ & H & _).
  rewrite (H 1%nat); [reflexivity | cbn; lia].
Defined.

(** ** Running a view *)

Ltac unfold_views :=
  unfold query_table, query_attempt, run_query, query_failed, dropdown_tables,
    table_detail, connection_detail, download_query_result,
    add_connection, test_connection, edit_connection, test_then_save, call_global,
    Connector.create_database_connector, Connector.connect, Connector.disconnect,
    Connector.get_tables, Connector.get_table_info, Connector.get_table_data,
    Connector.validate_query, Connector.execute_query,
    get_object_or_404, dict_index, read_local, session_get, session_set,
    QueryHistory_create, messages_add, connection_save, fresh_adapter, log, lift,
    try_except, raise, mbind, M_bind, mret, M_ret.

(** Follow every path of a view: one case per outcome of each call. *)
Ltac paths := unfold_views; repeat (case_match; simplify_eq/=).

Lemma emitted_app (s : State) (evs : list event) s' :
  trace s' = trace s ++ evs -> emitted s s' = evs.
Proof. unfold emitted. intros ->. by rewrite drop_app_length. Qed.

Lemma emitted_nil (s s' : State) : trace s' = trace s -> emitted s s' = [].
Proof. unfold emitted. intros ->. by rewrite drop_all. Qed.

(** Decide which element of an explicit list a member is. *)
Ltac member H :=
  repeat (apply elem_of_cons in H as [H | H]; [simplify_eq | ]);
  try (by apply elem_of_nil in H).

Ltac emitted_events :=
  first [ erewrite emitted_app by (simpl; rewrite <- ?app_assoc; reflexivity)
        | erewrite emitted_nil by reflexivity ].

Ltac side :=
  try eassumption; try reflexivity;
  lazymatch goal with
  | |- emitted _ _ = _ => emitted_events; reflexivity
  | |- quiet (emitted _ _) = _ => emitted_events; reflexivity
  | |- logged _ _ _ _ => eexists; simpl; rewrite <- ?app_assoc, ?app_nil_r; simpl;
        unfold or_; repeat match goal with H : truthy _ = true |- _ => rewrite H end;
        reflexivity
  | |- _ ∈ _ => simpl; rewrite ?elem_of_app, ?list_elem_of_singleton; auto
  | |- _ \/ _ => eauto
  | |- _ => idtac
  end.

(** Every run of query_table takes one of the six paths. *)
Lemma query_table_paths (w : World) (request : Request) (connection_id : Z) (s : State) :
  query_path w request connection_id s
    (query_table w request connection_id s).1 (query_table w request connection_id s).2.
Proof.
  paths.
  all: try match goal with
           | H : negb ?b = false |- _ => destruct b; [clear H | done]
           | H : negb ?b = true |- _ => destruct b; [done | clear H]
           end.
  all: first
    [ solve [eapply path_finished with (before := [_; _]); side; side]
    | solve [eapply path_late_failure with (before := [_; _]); side; side]
    | solve [eapply path_execution_raised with (before := [_; _]); side; side]
    | solve [eapply path_validation_raised with (before := [_; _]); side; side]
    | solve [eapply path_rejected with (before := [_; _]); side; side]
    | solve [eapply path_no_attempt; side] ].
Qed.

(** ** Validation before execution *)

Lemma quiet_elem (l : list event) (ev : event) :
  quiet l = true -> ev ∈ l -> quiet [ev] = true.
Proof.
  induction l as [ | ev' l IH]; intros Hq Hin.
  - by apply elem_of_nil in Hin.
  - cbn in Hq. apply andb_prop in Hq as [Hev Hl].
    apply elem_of_cons in Hin as [-> | Hin].
    + cbn. by rewrite Hev.
    + by apply IH.
Qed.

(** Among quiet events on both sides, a call is one of those in between. *)
Lemma call_between (before calls after : list event) (ev : event) :
  quiet before = true -> quiet after = true -> quiet [ev] = false ->
  ev ∈ before ++ calls ++ after -> ev ∈ calls.
Proof.
  intros Hb Ha Hev Hin.
  apply elem_of_app in Hin as [Hin | Hin].
  { apply (quiet_elem _ _ Hb) in Hin. congruence. }
  apply elem_of_app in Hin as [Hin | Hin]; [done | ].
  apply (quiet_elem _ _ Ha) in Hin. congruence.
Qed.

Lemma quiet_no_call (l : list event) (ev : event) :
  quiet l = true -> quiet [ev] = false -> ev ∉ l.
Proof. intros Hq Hev Hin. apply (quiet_elem _ _ Hq) in Hin. congruence. Qed.

Lemma logged_row (request : Request) (s s' : State) (q : pyval) (ok : bool)
    (err : option string) :
  logged request s s' [(q, ok, err)] ->
  exists r, history s' = history s ++ [r]
    /\ qh_query r = q /\ qh_success r = ok /\ qh_error_message r = err.
Proof. intros [connection ->]. eexists. split; [reflexivity | done]. Qed.

(** Which of the calls between quiet events a call is. *)
Ltac between H :=
  match type of H with
  | _ ∈ ?b ++ ?x :: ?y :: ?a => apply (call_between b [x; y] a) in H
  | _ ∈ ?b ++ ?x :: ?a => apply (call_between b [x] a) in H
  end; [member H | done ..].

(** C2: in query_table, whatever the adapters answer, a call of
    [execute_query] on a query comes directly after the call of
    [validate_query] on the same query and the same adapter, and that
    call returned [(True, _)].  When [validate_query] is called and
    returns [(False, message)], the request executes nothing, adds one
    row to the history, with the query, [success=False] and the
    validator's message as error text, flashes the message as a failure
    and stores no result in the session. *)
Theorem validation_gates_execution (w : World) (request : Request) (connection_id : Z)
    (s : State) (k : nat) (q : pyval) :
  let s' := (query_table w request connection_id s).2 in
  let evs := emitted s s' in
  (EvExecute k q ∈ evs ->
     exists message before after,
       w_validate_query w k q = Returns (true, message)
       /\ evs = before ++ EvValidate k q :: EvExecute k q :: after)
  /\ (forall message,
        EvValidate k q ∈ evs ->
        w_validate_query w k q = Returns (false, message) ->
        (forall k' q', EvExecute k' q' ∉ evs)
        /\ (exists r, history s' = history s ++ [r]
              /\ qh_query r = q /\ qh_success r = false
              /\ qh_error_message r = Some message)
        /\ (LError, "Query failed: " +:+ message) ∈ flashed s'
        /\ session s' = session s).
Proof.
  cbn zeta.
  destruct (query_table_paths w request connection_id s)
    as [ Hq _ _
       | k0 q0 message0 before after -> Hb Ha Hv Hlog Hflash Hsession
       | k0 q0 e before after -> Hb Ha Hv _ _
       | k0 q0 message0 e before after -> Hb Ha Hv _ _ _
       | k0 q0 message0 df e before after -> Hb Ha Hv _ _ _
       | k0 q0 message0 df data connection before -> Hb Hv _ _ _ _ _ ].
  - split; [intros Hin | intros message Hin _];
      by apply (quiet_no_call _ _ Hq) in Hin.
  - split; [intros Hin; between Hin | intros message Hin Hv'; between Hin].
    rewrite Hv in Hv'. injection Hv' as ->.
    split; [ | split; [by apply (logged_row request) | by split]].
    intros k' q' Hin. between Hin.
  - split; [intros Hin; between Hin | intros message Hin Hv'; between Hin].
    congruence.
  - split; [intros Hin; between Hin | intros message Hin Hv'; between Hin].
    + by exists message0, before, after.
    + congruence.
  - split; [intros Hin; between Hin | intros message Hin Hv'; between Hin].
    + by exists message0, before, after.
    + congruence.
  - split; [intros Hin; between Hin | intros message Hin Hv'; between Hin].
    + by eexists message0, before, [_].
    + congruence.
Qed.

Lemma validation_gates_execution_witness :
  let w := scripted true (Returns orders_info) (Returns orders) (Returns "{}")
             (Returns (true, "ok")) in
  let s' := (query_table w (post_query (custom "DROP TABLE x")) 7 initial).2 in
  (forall k' q', EvExecute k' q' ∉ emitted initial s')
  /\ (exists r, history s' = history initial ++ [r]
        /\ qh_query r = PStr "DROP TABLE x" /\ qh_success r = false
        /\ qh_error_message r = Some "forbidden operation: DROP")
  /\ (LError, "Query failed: " +:+ "forbidden operation: DROP") ∈ flashed s'
  /\ session s' = session initial.
Proof.
  cbn zeta.
  apply (validation_gates_execution _ (post_query (custom "DROP TABLE x")) 7 initial
           0%nat (PStr "DROP TABLE x")).
  - vm_compute. repeat constructor.
  - reflexivity.
Defined.

(** ** The validation policy *)

Lemma append_empty_r (s : string) : s +:+ EmptyString = s.
Proof.
  induction s as [ | c s IH]; [reflexivity | ].
  change (String c (s +:+ EmptyString) = String c s). by rewrite IH.
Qed.

Lemma names_suffix (before keyword : string) : Validator.names (before +:+ keyword) keyword.
Proof. exists before, EmptyString. by rewrite append_empty_r. Qed.

(** C1: for every input whose normalized leading keyword is not SELECT,
    [validate_query] returns [(False, message)]; when the input has a
    leading keyword at all (it is not blank), the message names that
    keyword.  The function is total: the rejection is its returned pair.
    In particular [DROP TABLE x] is rejected, naming DROP. *)
Theorem validate_query_rejects_non_select :
  (forall sql : string,
     Validator.leading_keyword sql <> Some "SELECT" ->
     exists message,
       Validator.validate_query sql = (false, message)
       /\ forall keyword, Validator.leading_keyword sql = Some keyword ->
                          Validator.names message keyword)
  /\ Validator.validate_query "DROP TABLE x" = (false, "forbidden operation: DROP").
Proof.
  split; [ | reflexivity].
  intros sql Hkw. unfold Validator.validate_query.
  destruct (Validator.leading_keyword sql) as [keyword | ] eqn:Hlead.
  - destruct (String.eqb_spec keyword "SELECT") as [-> | Hne]; [done | ].
    cbn. eexists. split; [reflexivity | ].
    intros ? [= <-]. apply names_suffix.
  - eexists. split; [reflexivity | ]. intros ? [=].
Qed.

Lemma validate_query_rejects_non_select_witness :
  exists message,
    Validator.validate_query "drop table x" = (false, message)
    /\ Validator.names message "DROP".
Proof.
  destruct (proj1 validate_query_rejects_non_select "drop table x") as (message & Hv & Hn).
  - vm_compute. discriminate.
  - exists message. split; [exact Hv | ]. apply Hn. reflexivity.
Defined.

(** The other rules of the policy, on the spec's examples. *)
Example validate_query_examples :
  Validator.validate_query EmptyString = (false, "empty query")
  /\ Validator.validate_query "   " = (false, "empty query")
  /\ Validator.validate_query "SELECT 1; DROP TABLE x" = (false, "multiple statements not allowed")
  /\ Validator.validate_query "SELECT * FROM t" = (true, "ok").
Proof. repeat split. Qed.

(** An accepted statement starts with SELECT and has nothing after a [;]. *)
Lemma validate_query_accepts (sql message : string) :
  Validator.validate_query sql = (true, message) ->
  Validator.leading_keyword sql = Some "SELECT" /\ Validator.stacked sql = false.
Proof.
  unfold Validator.validate_query.
  destruct (Validator.leading_keyword sql) as [keyword | ]; [ | done].
  destruct (String.eqb_spec keyword "SELECT") as [-> | Hne]; cbn; [ | done].
  by destruct (Validator.stacked sql).
Qed.

(** ** The name [test_connection] *)

Lemma test_connection_binding : module_globals !! "test_connection" = Some test_connection_view.
Proof. vm_compute. reflexivity. Qed.

(** The call never returns: it raises before any body runs. *)
Lemma call_test_connection_raises (w : World) (connection : DatabaseConnection) (s : State) :
  exists e, call_global w "test_connection" connection s = (Raises e, s)
    /\ (is_authenticated (conn_user connection) = true -> e = missing_connection_id).
Proof.
  unfold call_global. rewrite test_connection_binding. cbn [test_connection_view apply_to_connection].
  destruct (is_authenticated (conn_user connection)).
  - exists missing_connection_id. split; [reflexivity | done].
  - eexists. split; [reflexivity | done].
Qed.

Lemma test_then_save_fails (w : World) (connection : DatabaseConnection)
    (saved_message : string) (on_saved : response) (s : State) :
  exists e s',
    test_then_save w connection saved_message on_saved s = (Returns None, s')
    /\ connections s' = connections s
    /\ history s' = history s
    /\ flashed s' = flashed s ++ [(LError, "Error testing connection: " +:+ exn_str e)]
    /\ (is_authenticated (conn_user connection) = true -> e = missing_connection_id).
Proof.
  destruct (call_test_connection_raises w connection s) as (e & Hcall & He).
  exists e. unfold test_then_save, try_except, mbind, M_bind. rewrite Hcall.
  eexists. split; [reflexivity | done].
Qed.

Lemma success_not_new (fl : list (level * string)) (text error : string) :
  (LSuccess, text) ∈ fl ++ [(LError, error)] -> (LSuccess, text) ∈ fl.
Proof.
  intros [Hin | Hin]%elem_of_app; [done | ].
  by apply list_elem_of_singleton in Hin.
Qed.

Lemma owned_connection_user (connection_id : Z) (u : User) (cs : list DatabaseConnection)
    (connection : DatabaseConnection) :
  owned_connection connection_id u cs = Some connection ->
  conn_id connection = Some connection_id /\ conn_user connection = u.
Proof.
  intros [_ Hc]%find_some.
  apply andb_prop in Hc as [Hid Hu].
  split; [by apply bool_decide_eq_true in Hid | by apply bool_decide_eq_true in Hu].
Qed.

(** C9: the module binds the name [test_connection] twice, and the
    binding that calls see is the second, the two-parameter view with its
    [login_required] wrapper.  Every call [test_connection(connection)]
    therefore raises, whatever the imported function would have answered;
    for the connection of a logged-in user, which is what all three call
    sites pass, it raises the TypeError for the missing [connection_id].
    The views catch it and flash it as an error: add_connection and
    edit_connection never save a row and none of the three views flashes a
    success message; a valid POST to add_connection ends in the form page
    with the TypeError's text as the error, and the test_connection view
    and a valid POST to edit_connection flash the same text. *)
Theorem test_connection_calls_the_view (w : World) :
  module_globals !! "test_connection" = Some test_connection_view
  /\ (forall connection s,
        exists e, call_global w "test_connection" connection s = (Raises e, s)
          /\ (is_authenticated (conn_user connection) = true ->
              e = missing_connection_id /\ exn_cls e = TypeError))
  /\ (forall request s,
        let s' := (add_connection w request s).2 in
        connections s' = connections s
        /\ forall text, (LSuccess, text) ∈ flashed s' -> (LSuccess, text) ∈ flashed s)
  /\ (forall request connection_id s,
        let s' := (edit_connection w request connection_id s).2 in
        connections s' = connections s
        /\ forall text, (LSuccess, text) ∈ flashed s' -> (LSuccess, text) ∈ flashed s)
  /\ (forall request connection_id s,
        let s' := (test_connection w request connection_id s).2 in
        connections s' = connections s
        /\ forall text, (LSuccess, text) ∈ flashed s' -> (LSuccess, text) ∈ flashed s)
  /\ (forall request s,
        method request = "POST" ->
        cf_is_valid (post_connection_form request) = true ->
        is_authenticated (user request) = true ->
        exists s',
          add_connection w request s
          = (Returns (Render "database_tool/edit_connection.html"
                        (CtxEditConnection (post_connection_form request)
                           (form_instance (post_connection_form request) None
                              (user request)))), s')
          /\ flashed s'
             = flashed s ++ [(LError, "Error testing connection: "
                                        +:+ exn_str missing_connection_id)])
  /\ (forall request connection_id s connection,
        owned_connection connection_id (user request) (connections s) = Some connection ->
        is_authenticated (user request) = true ->
        exists s',
          test_connection w request connection_id s
          = (Returns (Redirect "connection_detail" (Some connection_id)), s')
          /\ flashed s'
             = flashed s ++ [(LError, "Error testing connection: "
                                        +:+ exn_str missing_connection_id)])
  /\ (forall request connection_id s connection,
        owned_connection connection_id (user request) (connections s) = Some connection ->
        is_authenticated (user request) = true ->
        method request = "POST" ->
        cf_is_valid (post_connection_form request) = true ->
        exists s',
          edit_connection w request connection_id s = (Returns ReturnsNone, s')
          /\ flashed s'
             = flashed s ++ [(LError, "Error testing connection: "
                                        +:+ exn_str missing_connection_id)]).
Proof.
  split; [apply test_connection_binding | ].
  split.
  { intros connection s.
    destruct (call_test_connection_raises w connection s) as (e & Hcall & He).
    exists e. split; [done | ]. intros Hauth. by rewrite (He Hauth). }
  split.
  { intros request s. unfold add_connection, mbind, M_bind, read_local, raise.
    destruct (String.eqb (method request) "POST"); [ | done].
    destruct (cf_is_valid (post_connection_form request)); [ | done].
    destruct (test_then_save_fails w
                (form_instance (post_connection_form request) None (user request))
                ("Database connection " +:+ dquote
                   +:+ conn_name (form_instance (post_connection_form request) None
                                    (user request))
                   +:+ dquote +:+ " added successfully!")
                (Redirect "dashboard" None) s)
      as (e & s' & Hrun & Hconn & _ & Hflash & _).
    cbn zeta. rewrite Hrun. cbn. split; [done | ].
    intros text. rewrite Hflash. apply success_not_new. }
  split.
  { intros request connection_id s.
    unfold edit_connection, mbind, M_bind, get_object_or_404.
    destruct (owned_connection _ _ (connections s)) as [connection | ] eqn:Hown; [ | done].
    destruct (String.eqb (method request) "POST"); [ | done].
    destruct (cf_is_valid (post_connection_form request)); [ | done].
    cbn zeta.
    match goal with
    | |- context [test_then_save w ?c ?m ?r s] =>
        destruct (test_then_save_fails w c m r s)
          as (e & s' & Hrun & Hconn & _ & Hflash & _)
    end.
    rewrite Hrun. cbn. split; [done | ].
    intros text. rewrite Hflash. apply success_not_new. }
  split.
  { intros request connection_id s.
    unfold test_connection, mbind, M_bind, get_object_or_404, try_except.
    destruct (owned_connection _ _ (connections s)) as [connection | ] eqn:Hown; [ | done].
    destruct (call_test_connection_raises w connection s) as (e & Hcall & _).
    rewrite Hcall. cbn. split; [done | ].
    intros text. apply success_not_new. }
  split.
  { intros request s Hpost Hvalid Hauth.
    unfold add_connection, mbind, M_bind, read_local.
    rewrite Hpost, Hvalid. cbn [String.eqb Ascii.eqb Bool.eqb].
    destruct (test_then_save_fails w
                (form_instance (post_connection_form request) None (user request))
                ("Database connection " +:+ dquote
                   +:+ conn_name (form_instance (post_connection_form request) None
                                    (user request))
                   +:+ dquote +:+ " added successfully!")
                (Redirect "dashboard" None) s)
      as (e & s' & Hrun & _ & _ & Hflash & He).
    cbn zeta. rewrite Hrun. rewrite (He Hauth) in Hflash.
    exists s'. split; [reflexivity | exact Hflash]. }
  split.
  { intros request connection_id s connection Hown Hauth.
    apply owned_connection_user in Hown as Huser. destruct Huser as [_ Huser].
    unfold test_connection, mbind, M_bind, get_object_or_404, try_except.
    rewrite Hown.
    destruct (call_test_connection_raises w connection s) as (e & Hcall & He).
    rewrite Hcall, He by (by rewrite Huser).
    eexists. split; reflexivity. }
  intros request connection_id s connection Hown Hauth Hpost Hvalid.
  apply owned_connection_user in Hown as Huser. destruct Huser as [_ Huser].
  unfold edit_connection, mbind, M_bind, get_object_or_404.
  rewrite Hown, Hpost, Hvalid. cbn [String.eqb Ascii.eqb Bool.eqb]. cbn zeta.
  match goal with
  | |- context [test_then_save w ?c ?m ?r s] =>
      destruct (test_then_save_fails w c m r s) as (e & s' & Hrun & _ & _ & Hflash & He)
  end.
  rewrite Hrun. cbn in He. rewrite (He ltac:(by rewrite Huser)) in Hflash.
  exists s'. split; [reflexivity | exact Hflash].
Qed.

Lemma test_connection_calls_the_view_witness :
  let w := scripted true (Returns orders_info) (Returns orders) (Returns "{}")
             (Returns (true, "Connection successful")) in
  exists s',
    add_connection w (post_connection true) initial
    = (Returns (Render "database_tool/edit_connection.html"
                  (CtxEditConnection (post_connection_form (post_connection true))
                     (form_instance (post_connection_form (post_connection true)) None
                        alice))), s')
    /\ flashed s'
       = [(LError, "Error testing connection: test_connection() missing 1 required positional argument: 'connection_id'")].
Proof.
  cbn zeta.
  destruct (test_connection_calls_the_view
              (scripted true (Returns orders_info) (Returns orders) (Returns "{}")
                 (Returns (true, "Connection successful"))))
    as (_ & _ & _ & _ & _ & H & _).
  apply (H (post_connection true) initial); reflexivity.
Defined.

(** ** Decorators *)

Lemma passed_returns {R} (view : M R) (s s' : State) (r : R) :
  view s = (Returns r, s') -> passed view s = (Returns (Passed r), s').
Proof. intros Hrun. unfold passed, mbind, M_bind. by rewrite Hrun. Qed.

Lemma passed_raises {R} (view : M R) (s s' : State) (e : exn) :
  view s = (Raises e, s') -> passed view s = (Raises e, s').
Proof. intros Hrun. unfold passed, mbind, M_bind. by rewrite Hrun. Qed.

Lemma login_required_logged_in {R} (request : Request) (view : M (served R)) :
  is_authenticated (user request) = true -> login_required request view = view.
Proof. intros Hauth. unfold login_required. by rewrite Hauth. Qed.

Lemma login_required_anonymous {R} (request : Request) (view : M (served R)) (s : State) :
  is_authenticated (user request) = false ->
  login_required request view s = (Returns LoginRedirect, s).
Proof. intros Hauth. unfold login_required. by rewrite Hauth. Qed.

(** Every view sends a visitor who is not logged in to the login page
    and does nothing else. *)
Lemma anonymous_request_is_redirected (w : World) (o : Orm) (request : Request)
    (api : ApiRequest) (connection_id : Z) (table_name : string) (s : State) :
  is_authenticated (user request) = false ->
  is_authenticated (user (api_http api)) = false ->
  View.dashboard o request s = (Returns LoginRedirect, s)
  /\ View.add_connection w request s = (Returns LoginRedirect, s)
  /\ View.delete_connection o request connection_id s = (Returns LoginRedirect, s)
  /\ View.test_connection w request connection_id s = (Returns LoginRedirect, s)
  /\ View.connection_detail w request connection_id s = (Returns LoginRedirect, s)
  /\ View.table_detail w request connection_id table_name s = (Returns LoginRedirect, s)
  /\ View.query_table w request connection_id s = (Returns LoginRedirect, s)
  /\ View.download_query_result w request connection_id s = (Returns LoginRedirect, s)
  /\ View.edit_connection w request connection_id s = (Returns LoginRedirect, s)
  /\ View.api_get_tables w api connection_id s = (Returns LoginRedirect, s)
  /\ View.api_get_table_info w api connection_id table_name s = (Returns LoginRedirect, s)
  /\ View.api_preview_table w api connection_id table_name s = (Returns LoginRedirect, s)
  /\ View.api_validate_query w o api s = (Returns LoginRedirect, s).
Proof.
  intros Hrequest Hapi. repeat split; by apply login_required_anonymous.
Qed.

Lemma require_http_methods_permitted {R} (request_method_list : list string)
    (request : Request) (view : M (served R)) :
  method request ∈ request_method_list ->
  require_http_methods request_method_list request view = view.
Proof. intros Hin. unfold require_http_methods. by rewrite bool_decide_eq_true_2. Qed.

Lemma require_http_methods_refused {R} (request_method_list : list string)
    (request : Request) (view : M (served R)) (s : State) :
  method request ∉ request_method_list ->
  require_http_methods request_method_list request view s
  = (Returns (NotAllowed request_method_list), s).
Proof. intros Hin. unfold require_http_methods. by rewrite bool_decide_eq_false_2. Qed.

(** The request of a logged-in user reaches the function, and the answer
    is the function's; for query_table, when the method is GET or POST. *)
Lemma logged_in_request_reaches_function (w : World) (o : Orm) (request : Request)
    (api : ApiRequest) (connection_id : Z) (table_name : string) :
  is_authenticated (user request) = true ->
  is_authenticated (user (api_http api)) = true ->
  View.dashboard o request = passed (dashboard o request)
  /\ View.add_connection w request = passed (add_connection w request)
  /\ View.delete_connection o request connection_id
     = passed (delete_connection o request connection_id)
  /\ View.test_connection w request connection_id
     = passed (test_connection w request connection_id)
  /\ View.connection_detail w request connection_id
     = passed (connection_detail w request connection_id)
  /\ View.table_detail w request connection_id table_name
     = passed (table_detail w request connection_id table_name)
  /\ (method request = "GET" \/ method request = "POST" ->
      View.query_table w request connection_id
      = passed (query_table w request connection_id))
  /\ View.download_query_result w request connection_id
     = passed (download_query_result w request connection_id)
  /\ View.edit_connection w request connection_id
     = passed (edit_connection w request connection_id)
  /\ View.api_get_tables w api connection_id = passed (api_get_tables w api connection_id)
  /\ View.api_get_table_info w api connection_id table_name
     = passed (api_get_table_info w api connection_id table_name)
  /\ View.api_preview_table w api connection_id table_name
     = passed (api_preview_table w api connection_id table_name)
  /\ View.api_validate_query w o api = passed (api_validate_query w o api).
Proof.
  intros Hrequest Hapi.
  repeat split; try (by apply login_required_logged_in).
  intros Hmethod. unfold View.query_table.
  rewrite login_required_logged_in by done.
  apply require_http_methods_permitted.
  destruct Hmethod as [-> | ->]; set_solver.
Qed.

(** ** The local [connection] of add_connection *)

(** The function under the decorator, on the two paths that do not assign
    [connection]. *)
Lemma add_connection_function_raises (w : World) (request : Request) (s : State) :
  String.eqb (method request) "POST" = false
    \/ cf_is_valid (post_connection_form request) = false ->
  exists e,
    add_connection w request s = (Raises e, s)
    /\ exn_cls e = UnboundLocalError
    /\ isinstance e NameError = true
    /\ isinstance e Exception = true.
Proof.
  intros Hpath. unfold add_connection, mbind, M_bind, read_local, raise.
  destruct (String.eqb (method request) "POST") eqn:Hmethod.
  - destruct Hpath as [? | Hvalid]; [done | ].
    rewrite Hvalid. cbn. eexists. split; [reflexivity | done].
  - cbn. eexists. split; [reflexivity | done].
Qed.

(** C10, as amended: for a logged-in user, on a request that is not a
    POST and on a POST whose form is not valid, add_connection raises at
    the first read of its local [connection] (line 58, line 60), which no
    statement on these paths has assigned: an UnboundLocalError, which is a
    NameError.  Nothing is done before it and no response is produced, so
    the form is not rendered on these paths.  A visitor who is not logged
    in does not reach the function: [login_required] (line 37) answers
    with the redirect to the login page. *)
Theorem add_connection_reads_unbound_local (w : World) (request : Request) (s : State) :
  (is_authenticated (user request) = true ->
   String.eqb (method request) "POST" = false
     \/ cf_is_valid (post_connection_form request) = false ->
   exists e,
     View.add_connection w request s = (Raises e, s)
     /\ exn_cls e = UnboundLocalError
     /\ isinstance e NameError = true
     /\ isinstance e Exception = true)
  /\ (is_authenticated (user request) = false ->
      View.add_connection w request s = (Returns LoginRedirect, s)).
Proof.
  split.
  - intros Hauth Hpath.
    destruct (add_connection_function_raises w request s Hpath) as (e & Hrun & He).
    exists e. split; [ | exact He].
    unfold View.add_connection. rewrite login_required_logged_in by done.
    by apply passed_raises.
  - intros Hanonymous. by apply login_required_anonymous.
Qed.

Lemma add_connection_reads_unbound_local_witness :
  exists e,
    View.add_connection (scripted true (Returns orders_info) (Returns orders) (Returns "{}")
                           (Returns (true, "ok"))) get_request initial
    = (Raises e, initial)
    /\ exn_cls e = UnboundLocalError
    /\ isinstance e NameError = true
    /\ isinstance e Exception = true.
Proof.
  apply (proj1 (add_connection_reads_unbound_local _ get_request initial)).
  - reflexivity.
  - left. reflexivity.
Defined.

(** A GET request on which add_connection raises nothing: that of a
    visitor who is not logged in, which is answered by the login
    redirect. *)
Lemma add_connection_anonymous_get_is_redirected :
  View.add_connection (scripted true (Returns orders_info) (Returns orders) (Returns "{}")
                         (Returns (true, "ok"))) (anonymous_request "GET") initial
  = (Returns LoginRedirect, initial)
  /\ ~ (exists e s',
          View.add_connection
            (scripted true (Returns orders_info) (Returns orders) (Returns "{}")
               (Returns (true, "ok"))) (anonymous_request "GET") initial
          = (Raises e, s')).
Proof.
  split; [reflexivity | ].
  intros (e & s' & Hrun). discriminate Hrun.
Qed.

(** The other path: a POST with a valid form assigns [connection] at
    line 43, and line 60 renders the form page. *)
Example add_connection_valid_post_renders :
  (add_connection (scripted true (Returns orders_info) (Returns orders) (Returns "{}")
                     (Returns (true, "ok"))) (post_connection true) initial).1
  = Returns (Render "database_tool/edit_connection.html"
               (CtxEditConnection (post_connection_form (post_connection true))
                  (form_instance (post_connection_form (post_connection true)) None alice))).
Proof. vm_compute. reflexivity. Qed.

(** ** The query history *)

(** X1: query_table only appends to the history: after any request the
    rows that were there are still there, unchanged and in place, followed
    by at most two new ones. *)
Lemma query_table_appends (w : World) (request : Request) (connection_id : Z) (s : State) :
  exists rows : list QueryHistory,
    history (query_table w request connection_id s).2 = history s ++ rows
    /\ (length rows <= 2)%nat.
Proof.
  destruct (query_table_paths w request connection_id s)
    as [ _ Hh _
       | ? ? ? ? ? _ _ _ _ [c Hh] _ _
       | ? ? ? ? ? _ _ _ _ [c Hh] _
       | ? ? ? ? ? ? _ _ _ _ _ [c Hh] _
       | ? ? ? ? ? ? ? _ _ _ _ _ _ [c Hh]
       | ? ? ? ? ? ? ? _ _ _ _ _ [c Hh] _ _ ].
  - exists []. split; [by rewrite app_nil_r | cbn; lia].
  - eexists. split; [exact Hh | cbn; lia].
  - eexists. split; [exact Hh | cbn; lia].
  - eexists. split; [exact Hh | cbn; lia].
  - eexists. split; [exact Hh | cbn; lia].
  - eexists. split; [exact Hh | cbn; lia].
Qed.

(** X2: connection_detail, table_detail, download_query_result,
    test_connection, add_connection and edit_connection never write to the
    history, whatever the adapters answer. *)
Lemma other_views_keep_history (w : World) (request : Request) (connection_id : Z)
    (table_name : string) (s : State) :
  history (connection_detail w request connection_id s).2 = history s
  /\ history (table_detail w request connection_id table_name s).2 = history s
  /\ history (download_query_result w request connection_id s).2 = history s
  /\ history (test_connection w request connection_id s).2 = history s
  /\ history (add_connection w request s).2 = history s
  /\ history (edit_connection w request connection_id s).2 = history s.
Proof.
  repeat split.
  - paths; reflexivity.
  - paths; reflexivity.
  - paths; reflexivity.
  - unfold test_connection, mbind, M_bind, get_object_or_404, try_except.
    destruct (owned_connection _ _ (connections s)) as [connection | ] eqn:Hown; [ | done].
    destruct (call_test_connection_raises w connection s) as (e & -> & _). done.
  - unfold add_connection, mbind, M_bind, read_local, raise.
    destruct (String.eqb (method request) "POST"); [ | done].
    destruct (cf_is_valid (post_connection_form request)); [ | done].
    cbn zeta.
    match goal with
    | |- context [test_then_save w ?c ?m ?r s] =>
        destruct (test_then_save_fails w c m r s) as (e & s' & -> & _ & Hh & _)
    end.
    done.
  - unfold edit_connection, mbind, M_bind, get_object_or_404.
    destruct (owned_connection _ _ (connections s)) as [connection | ] eqn:Hown; [ | done].
    destruct (String.eqb (method request) "POST"); [ | done].
    destruct (cf_is_valid (post_connection_form request)); [ | done].
    cbn zeta.
    match goal with
    | |- context [test_then_save w ?c ?m ?r s] =>
        destruct (test_then_save_fails w c m r s) as (e & s' & -> & _ & Hh & _)
    end.
    done.
Qed.

(** X7: a request that ends in the result page has added exactly one
    row to the history, with [success=True] and no error text, for the
    query that was executed. *)
Lemma finished_query_logs_once (w : World) (request : Request) (connection_id : Z)
    (s : State) :
  (exists response, (query_table w request connection_id s).1
                    = Returns (Render "database_tool/query_result.html" response)) ->
  exists r, history (query_table w request connection_id s).2 = history s ++ [r]
    /\ qh_success r = true /\ qh_error_message r = None
    /\ EvExecute (adapters s) (qh_query r)
       ∈ emitted s (query_table w request connection_id s).2.
Proof.
  intros [response Hr]. revert Hr. paths; intros [=].
  all: eexists; split; [reflexivity | ]; repeat split.
  all: emitted_events; set_solver.
Qed.

(** C6: an execution attempt that adds two rows, not one.  The query
    [SELECT 1 AS a, 2 AS a] passes validation and runs; its result has the
    label [a] twice, for which [DataFrame.to_json()] raises ValueError.
    The row with [success=True] is already written (line 198) when the
    [except] clause (line 238) writes a second row, with [success=False],
    for the same query. *)
Theorem late_failure_logged_twice :
  let w := scripted true (Returns orders_info) (Returns twice_a)
             (Raises (Exn ValueError
                "DataFrame columns must be unique for orient='columns'."))
             (Returns (true, "ok")) in
  let run := query_table w (post_query (custom "SELECT 1 AS a, 2 AS a")) 7 initial in
  map (fun r => (qh_query r, qh_success r, qh_error_message r)) (history run.2)
  = [ (PStr "SELECT 1 AS a, 2 AS a", true, None);
      (PStr "SELECT 1 AS a, 2 AS a", false,
       Some "DataFrame columns must be unique for orient='columns'.") ]
  /\ emitted initial run.2
     = [ EvCreate 0; EvConnect 0;
         EvValidate 0 (PStr "SELECT 1 AS a, 2 AS a");
         EvExecute 0 (PStr "SELECT 1 AS a, 2 AS a");
         EvCreate 1; EvConnect 1; EvGetTables 1; EvDisconnect 1 ]
  /\ flashed run.2
     = [(LError, "Query failed: DataFrame columns must be unique for orient='columns'.")].
Proof. vm_compute. repeat split. Qed.

(** The same happens for every world and request in which a step after
    [execute_query] raises. *)
Lemma failure_after_execute_adds_two_rows (w : World) (request : Request) (connection_id : Z)
    (s : State) (k : nat) (q : pyval) (result_df : DataFrame) (e : exn) :
  EvExecute k q ∈ emitted s (query_table w request connection_id s).2 ->
  w_execute_query w k q = Returns result_df ->
  w_to_json w result_df = Raises e ->
  exists r1 r2,
    history (query_table w request connection_id s).2 = history s ++ [r1; r2]
    /\ qh_query r1 = q /\ qh_success r1 = true
    /\ qh_query r2 = q /\ qh_success r2 = false
    /\ qh_error_message r2 = Some (exn_str e).
Proof.
  intros Hin Hx Hj.
  destruct (query_table_paths w request connection_id s)
    as [ Hq _ _
       | k0 q0 message0 before after Hev Hb Ha _ _ _ _
       | k0 q0 e0 before after Hev Hb Ha _ _ _
       | k0 q0 message0 e0 before after Hev Hb Ha _ Hx0 _ _
       | k0 q0 message0 df e0 before after Hev Hb Ha _ Hx0 Hlate [c Hh]
       | k0 q0 message0 df data connection before Hev Hb _ Hx0 Hj0 _ _ _ ].
  - by apply (quiet_no_call _ _ Hq) in Hin.
  - rewrite Hev in Hin. between Hin.
  - rewrite Hev in Hin. between Hin.
  - rewrite Hev in Hin. between Hin. congruence.
  - rewrite Hev in Hin. between Hin.
    assert (df = result_df) as -> by congruence.
    assert (e0 = e) as ->.
    { destruct Hlate as [Hj0 | [[data Hj0] _]]; congruence. }
    rewrite Hh. eexists _, _. split; [reflexivity | done].
  - rewrite Hev in Hin. between Hin. congruence.
Qed.

Lemma failure_after_execute_adds_two_rows_witness :
  let w := scripted true (Returns orders_info) (Returns twice_a)
             (Raises (Exn ValueError
                "DataFrame columns must be unique for orient='columns'."))
             (Returns (true, "ok")) in
  exists r1 r2,
    history (query_table w (post_query (custom "SELECT 1 AS a, 2 AS a")) 7 initial).2
    = history initial ++ [r1; r2]
    /\ qh_query r1 = PStr "SELECT 1 AS a, 2 AS a" /\ qh_success r1 = true
    /\ qh_query r2 = PStr "SELECT 1 AS a, 2 AS a" /\ qh_success r2 = false
    /\ qh_error_message r2
       = Some "DataFrame columns must be unique for orient='columns'.".
Proof.
  cbn zeta.
  eapply (failure_after_execute_adds_two_rows _ _ 7 initial 0%nat (PStr "SELECT 1 AS a, 2 AS a")
            twice_a (Exn ValueError _)).
  - vm_compute. repeat constructor.
  - reflexivity.
  - reflexivity.
Defined.

(** ** Adapter sessions *)

(** X6: table_detail releases the session when its reads return: if
    [get_table_data] was called and returned, [disconnect()] is called on
    the same adapter before the view answers. *)
Lemma table_detail_disconnects_after_reads (w : World) (request : Request)
    (connection_id : Z) (table_name : string) (s : State) (sample : DataFrame) :
  EvGetTableData (adapters s) table_name
    ∈ emitted s (table_detail w request connection_id table_name s).2 ->
  w_get_table_data w (adapters s) table_name 10 None = Returns sample ->
  EvDisconnect (adapters s) ∈ emitted s (table_detail w request connection_id table_name s).2.
Proof.
  paths; try emitted_events; intros Hin Hdata; member Hin; try congruence.
  all: set_solver.
Qed.

Lemma table_detail_disconnects_after_reads_witness :
  let w := scripted true (Returns orders_info) (Returns orders) (Returns "{}")
             (Returns (true, "ok")) in
  EvDisconnect 0 ∈ emitted initial (table_detail w get_request 7 "orders" initial).2.
Proof.
  cbn zeta.
  apply (table_detail_disconnects_after_reads _ get_request 7 "orders" initial orders).
  - vm_compute. repeat constructor.
  - reflexivity.
Defined.

(** When a read raises after [connect()] returned true, table_detail
    flashes the error and redirects; the adapter it connected is not
    disconnected. *)
Lemma table_detail_skips_disconnect (w : World) (request : Request) (connection_id : Z)
    (table_name : string) (s : State) (e : exn) :
  EvGetTableInfo (adapters s) table_name
    ∈ emitted s (table_detail w request connection_id table_name s).2 ->
  w_get_table_info w (adapters s) table_name = Raises e ->
  table_detail w request connection_id table_name s
  = (Returns (Redirect "connection_detail" (Some connection_id)),
     (table_detail w request connection_id table_name s).2)
  /\ emitted s (table_detail w request connection_id table_name s).2
     = [EvCreate (adapters s); EvConnect (adapters s);
        EvGetTableInfo (adapters s) table_name]
  /\ w_connect w (adapters s) = Returns true.
Proof.
  paths; try emitted_events; intros Hin Hinfo; member Hin; try congruence.
  all: repeat split; first [done | by emitted_events].
Qed.

Lemma table_detail_skips_disconnect_witness :
  let w := scripted true (Raises (Exn (LibraryError "SchemaError") "no such table: missing"))
             (Returns orders) (Returns "{}") (Returns (true, "ok")) in
  emitted initial (table_detail w get_request 7 "missing" initial).2
  = [EvCreate 0; EvConnect 0; EvGetTableInfo 0 "missing"].
Proof.
  cbn zeta.
  eapply (table_detail_skips_disconnect _ get_request 7 "missing" initial).
  - vm_compute. repeat constructor.
  - reflexivity.
Defined.

(** C7: paths on which a connected adapter is not disconnected.  In
    table_detail,
    [connect()] returns true and [get_table_info] raises for a table that
    does not exist: the view redirects with adapter 0 connected and never
    disconnected.  In query_table, a rejected query ([DROP TABLE x]) and an
    empty custom query leave adapter 0 connected as well; the disconnect in
    the trace is that of adapter 1, opened for the table dropdown. *)
Theorem disconnect_skipped_on_error :
  let failing := scripted true (Raises (Exn (LibraryError "SchemaError") "no such table: missing"))
                   (Returns orders) (Returns "{}") (Returns (true, "ok")) in
  let working := scripted true (Returns orders_info) (Returns orders) (Returns "{}")
                   (Returns (true, "ok")) in
  let detail := table_detail failing get_request 7 "missing" initial in
  let rejected := query_table working (post_query (custom "DROP TABLE x")) 7 initial in
  let empty := query_table working (post_query (custom EmptyString)) 7 initial in
  detail.1 = Returns (Redirect "connection_detail" (Some 7))
  /\ w_connect failing 0 = Returns true
  /\ emitted initial detail.2 = [EvCreate 0; EvConnect 0; EvGetTableInfo 0 "missing"]
  /\ (EvDisconnect 0 ∉ emitted initial detail.2)
  /\ emitted initial rejected.2
     = [EvCreate 0; EvConnect 0; EvValidate 0 (PStr "DROP TABLE x");
        EvCreate 1; EvConnect 1; EvGetTables 1; EvDisconnect 1]
  /\ (EvDisconnect 0 ∉ emitted initial rejected.2)
  /\ emitted initial empty.2
     = [EvCreate 0; EvConnect 0; EvCreate 1; EvConnect 1; EvGetTables 1; EvDisconnect 1]
  /\ (EvDisconnect 0 ∉ emitted initial empty.2).
Proof.
  cbn zeta.
  assert (emitted initial
            (table_detail
               (scripted true (Raises (Exn (LibraryError "SchemaError") "no such table: missing"))
                  (Returns orders) (Returns "{}") (Returns (true, "ok")))
               get_request 7 "missing" initial).2
          = [EvCreate 0; EvConnect 0; EvGetTableInfo 0 "missing"]) as Hdetail
    by (vm_compute; reflexivity).
  assert (emitted initial
            (query_table
               (scripted true (Returns orders_info) (Returns orders) (Returns "{}")
                  (Returns (true, "ok")))
               (post_query (custom "DROP TABLE x")) 7 initial).2
          = [EvCreate 0; EvConnect 0; EvValidate 0 (PStr "DROP TABLE x");
             EvCreate 1; EvConnect 1; EvGetTables 1; EvDisconnect 1]) as Hrejected
    by (vm_compute; reflexivity).
  assert (emitted initial
            (query_table
               (scripted true (Returns orders_info) (Returns orders) (Returns "{}")
                  (Returns (true, "ok")))
               (post_query (custom EmptyString)) 7 initial).2
          = [EvCreate 0; EvConnect 0; EvCreate 1; EvConnect 1; EvGetTables 1;
             EvDisconnect 1]) as Hempty
    by (vm_compute; reflexivity).
  rewrite Hdetail, Hrejected, Hempty.
  repeat split; try (vm_compute; reflexivity).
  all: intros Hin; member Hin.
Qed.

(** ** The stored result *)

(** X3: when query_table ends in the result page, the query was executed
    on the request's adapter, the page shows the preview of its result, and
    the session holds, under the key of the connection, the query, the
    connection's name and [to_json()] of the whole result, not of the
    preview. *)
Lemma finished_query_stores_result (w : World) (request : Request) (connection_id : Z)
    (s : State) (connection : DatabaseConnection) (form : QueryForm)
    (result : result_data) (query : pyval) (can_download : bool) :
  (query_table w request connection_id s).1
  = Returns (Render "database_tool/query_result.html"
               (CtxQueryResult connection form result query can_download)) ->
  exists result_df data,
    w_execute_query w (adapters s) query = Returns result_df
    /\ result = make_result_data result_df
    /\ w_to_json w result_df = Returns data
    /\ session (query_table w request connection_id s).2 !! session_key connection_id
       = Some {| se_query := query; se_data := data;
                 se_connection_name := conn_name connection |}.
Proof.
  paths; intros [=]; subst.
  all: eexists _, _; repeat split; try eassumption.
  all: by rewrite lookup_insert_eq.
Qed.



(** ** The round trip of a stored result *)

(** C5: two results of executed queries that the download does not give
    back.  The result of [SELECT 1 AS a, 2 AS a] has the label [a] twice;
    [to_json()] (line 216) raises on it, so nothing is stored and the
    download answers "No query result found".  The result of a query for
    a text column holding [007] is stored as [{"code":{"0":"007"}}];
    [read_json] (line 284) gives that column the integer 7, and the file
    that is downloaded is written from the table read back, not from the
    result. *)
Theorem round_trip_loses_results :
  (let w := scripted true (Returns orders_info) (Returns twice_a)
              (Raises (Exn ValueError
                 "DataFrame columns must be unique for orient='columns'."))
              (Returns (true, "ok")) in
   let request := post_query (custom "SELECT 1 AS a, 2 AS a") in
   let stored := (View.query_table w request 7 initial).2 in
   EvExecute 0 (PStr "SELECT 1 AS a, 2 AS a") ∈ emitted initial stored
   /\ w_execute_query w 0%nat (PStr "SELECT 1 AS a, 2 AS a") = Returns twice_a
   /\ session stored !! session_key 7 = None
   /\ (View.download_query_result w request 7 stored).1
      = Returns (Passed (Redirect "query_table" (Some 7)))
   /\ flashed (View.download_query_result w request 7 stored).2
      = flashed stored ++ [(LError, "No query result found. Please run a query first.")])
  /\ (let w := pandas_world codes (Returns codes_json) (Returns codes_read_back) in
      let request := post_query (custom "SELECT code FROM parts") in
      let run := View.query_table w request 7 initial in
      (exists form,
         run.1 = Returns (Passed (Render "database_tool/query_result.html"
                   (CtxQueryResult shop form (make_result_data codes)
                      (PStr "SELECT code FROM parts") true))))
      /\ w_execute_query w 0%nat (PStr "SELECT code FROM parts") = Returns codes
      /\ session run.2 !! session_key 7
         = Some {| se_query := PStr "SELECT code FROM parts"; se_data := codes_json;
                   se_connection_name := "shop" |}
      /\ View.download_query_result w request 7 run.2
         = (Returns (Passed (Attachment "text/csv" "shop_query_result.csv"
                               (CsvOf codes_read_back))), run.2)
      /\ df_columns codes_read_back = df_columns codes
      /\ df_rows codes = [[CText "007"]]
      /\ df_rows codes_read_back = [[CInt 7]]
      /\ df_rows codes_read_back <> df_rows codes).
Proof.
  split.
  - cbn zeta. split; [vm_compute; repeat constructor | ].
    repeat split; vm_compute; reflexivity.
  - cbn zeta. split; [eexists; vm_compute; reflexivity | ].
    repeat split; try (vm_compute; reflexivity).
    intros [=].
Qed.

(** * Further properties of the views *)

Ltac unfold_more :=
  unfold dashboard, delete_connection, api_get_tables, api_get_table_info,
    api_preview_table, api_validate_query, api_error, api_not_connected,
    get_object_or_404_key, connection_delete, get_state.

(** ** Ownership *)

(** The functions under the decorators start with the lookup. *)
Lemma lookup_fails_first (w : World) (o : Orm) (request : Request)
    (api : ApiRequest) (connection_id : Z) (table_name : string) (s : State) :
  owned_connection connection_id (user request) (connections s) = None ->
  user (api_http api) = user request ->
  connection_detail w request connection_id s = (Raises not_found, s)
  /\ table_detail w request connection_id table_name s = (Raises not_found, s)
  /\ query_table w request connection_id s = (Raises not_found, s)
  /\ test_connection w request connection_id s = (Raises not_found, s)
  /\ edit_connection w request connection_id s = (Raises not_found, s)
  /\ delete_connection o request connection_id s = (Raises not_found, s)
  /\ api_get_tables w api connection_id s = (Raises not_found, s)
  /\ api_get_table_info w api connection_id table_name s = (Raises not_found, s)
  /\ api_preview_table w api connection_id table_name s = (Raises not_found, s).
Proof.
  intros Hown Huser.
  unfold connection_detail, table_detail, query_table, test_connection, edit_connection,
    delete_connection, api_get_tables, api_get_table_info, api_preview_table,
    mbind, M_bind, get_object_or_404.
  rewrite Huser, Hown. repeat split.
Qed.

(** X8: for a logged-in user, a view that takes a connection id answers
    a request for a connection that does not exist, or belongs to another
    user, with Http404 before it does anything else: no adapter is created
    and the state is unchanged.  For query_table this holds of GET and POST
    requests; for any other method [require_http_methods] (line 147)
    answers 405 first, and does nothing else either. *)
Theorem unowned_connection_is_404 (w : World) (o : Orm) (request : Request)
    (api : ApiRequest) (connection_id : Z) (table_name : string) (s : State) :
  is_authenticated (user request) = true ->
  owned_connection connection_id (user request) (connections s) = None ->
  user (api_http api) = user request ->
  View.connection_detail w request connection_id s = (Raises not_found, s)
  /\ View.table_detail w request connection_id table_name s = (Raises not_found, s)
  /\ (method request = "GET" \/ method request = "POST" ->
      View.query_table w request connection_id s = (Raises not_found, s))
  /\ (method request <> "GET" -> method request <> "POST" ->
      View.query_table w request connection_id s
      = (Returns (NotAllowed ["GET"; "POST"]), s))
  /\ View.test_connection w request connection_id s = (Raises not_found, s)
  /\ View.edit_connection w request connection_id s = (Raises not_found, s)
  /\ View.delete_connection o request connection_id s = (Raises not_found, s)
  /\ View.api_get_tables w api connection_id s = (Raises not_found, s)
  /\ View.api_get_table_info w api connection_id table_name s = (Raises not_found, s)
  /\ View.api_preview_table w api connection_id table_name s = (Raises not_found, s).
Proof.
  intros Hauth Hown Huser.
  assert (is_authenticated (user (api_http api)) = true) as Hapi by (by rewrite Huser).
  destruct (lookup_fails_first w o request api connection_id table_name s Hown Huser)
    as (Hdetail & Htable & Hquery & Htest & Hedit & Hdelete & Htables & Hinfo & Hpreview).
  unfold View.connection_detail, View.table_detail, View.query_table, View.test_connection,
    View.edit_connection, View.delete_connection, View.api_get_tables,
    View.api_get_table_info, View.api_preview_table, csrf_exempt.
  rewrite !login_required_logged_in by done.
  repeat split; try (by apply passed_raises).
  - intros Hmethod. rewrite require_http_methods_permitted; [by apply passed_raises | ].
    destruct Hmethod as [-> | ->]; set_solver.
  - intros Hget Hpost. apply require_http_methods_refused.
    intros Hin. apply elem_of_cons in Hin as [? | Hin]; [done | ].
    apply elem_of_cons in Hin as [? | Hin]; [done | ].
    by apply elem_of_nil in Hin.
Qed.

Lemma unowned_connection_is_404_witness :
  View.query_table (scripted true (Returns orders_info) (Returns orders) (Returns "{}")
                      (Returns (true, "ok")))
    {| method := "POST"; user := bob;
       post_query_form := post_query_form (post_query (custom "SELECT 1"));
       post_connection_form := post_connection_form get_request; post_format := None |}
    7 initial
  = (Raises not_found, initial).
Proof.
  destruct (unowned_connection_is_404
              (scripted true (Returns orders_info) (Returns orders) (Returns "{}")
                 (Returns (true, "ok"))) plain_orm
              {| method := "POST"; user := bob;
                 post_query_form := post_query_form (post_query (custom "SELECT 1"));
                 post_connection_form := post_connection_form get_request;
                 post_format := None |}
              (api_request "GET" bob None (BodyOther "list")) 7 "orders" initial
              eq_refl eq_refl eq_refl) as (_ & _ & Hquery & _).
  apply Hquery. by right.
Defined.

(** ** connection_detail *)

(** X9: for a connection of the user, connection_detail never raises and
    always renders its page, with the number of tables shown.  The
    status is true exactly when the adapter was created, [connect()]
    returned true and [get_tables()] returned, and the tables are then
    those it returned; otherwise there are none.  Saved connections, history
    and session are untouched. *)
Theorem connection_detail_always_renders (w : World) (request : Request)
    (connection_id : Z) (s : State) (connection : DatabaseConnection) :
  owned_connection connection_id (user request) (connections s) = Some connection ->
  exists tables status s',
    connection_detail w request connection_id s
    = (Returns (Render "database_tool/connection_detail.html"
                  (CtxConnectionDetail connection tables status (length tables))), s')
    /\ (status = true <->
        (exists u, w_create w (adapters s) connection = Returns u)
        /\ w_connect w (adapters s) = Returns true
        /\ w_get_tables w (adapters s) = Returns tables)
    /\ (status = false -> tables = [])
    /\ connections s' = connections s /\ history s' = history s
    /\ session s' = session s.
Proof.
  intros Hown. unfold connection_detail, mbind, M_bind, get_object_or_404. rewrite Hown.
  paths;
    first [ eexists _, _, _; split; [reflexivity | ]
          | exists [], false; eexists; split; [reflexivity | ] ];
    repeat split; try done.
  all: try (intros ([? ?] & ? & ?); congruence).
  all: eauto.
Qed.

Lemma connection_detail_always_renders_witness :
  exists s',
    connection_detail (scripted true (Returns orders_info) (Returns orders) (Returns "{}")
                         (Returns (true, "ok"))) get_request 7 initial
    = (Returns (Render "database_tool/connection_detail.html"
                  (CtxConnectionDetail shop ["orders"; "customers"] true 2)), s').
Proof.
  destruct (connection_detail_always_renders
              (scripted true (Returns orders_info) (Returns orders) (Returns "{}")
                 (Returns (true, "ok"))) get_request 7 initial shop eq_refl)
    as (tables & status & s' & Hrun & Hstatus & _).
  assert (status = true /\ tables = ["orders"; "customers"]) as [-> ->].
  { vm_compute in Hrun. by injection Hrun as <- <-. }
  by exists s'.
Defined.

(** ** download_query_result without a usable result *)





Lemma finished_query_stores_result_witness :
  let w := scripted true (Returns orders_info) (Returns orders) (Returns "{}")
             (Returns (true, "ok")) in
  exists result_df data,
    w_execute_query w 0%nat (PStr "SELECT * FROM orders") = Returns result_df
    /\ make_result_data orders = make_result_data result_df
    /\ w_to_json w result_df = Returns data
    /\ session (query_table w (post_query (custom "SELECT * FROM orders")) 7 initial).2
         !! session_key 7
       = Some {| se_query := PStr "SELECT * FROM orders"; se_data := data;
                 se_connection_name := conn_name shop |}.
Proof.
  cbn zeta.
  apply (finished_query_stores_result _ (post_query (custom "SELECT * FROM orders")) 7 initial
           shop (post_query_form (post_query (custom "SELECT * FROM orders")))
           (make_result_data orders) (PStr "SELECT * FROM orders") true).
  vm_compute. reflexivity.
Defined.

Lemma finished_query_logs_once_witness :
  let w := scripted true (Returns orders_info) (Returns orders) (Returns "{}")
             (Returns (true, "ok")) in
  exists r,
    history (query_table w (post_query (custom "SELECT * FROM orders")) 7 initial).2
    = history initial ++ [r]
    /\ qh_success r = true /\ qh_error_message r = None
    /\ EvExecute (adapters initial) (qh_query r)
       ∈ emitted initial (query_table w (post_query (custom "SELECT * FROM orders")) 7 initial).2.
Proof.
  cbn zeta.
  apply (finished_query_logs_once _ (post_query (custom "SELECT * FROM orders")) 7 initial).
  eexists. vm_compute. reflexivity.
Defined.

(** ** delete_connection *)

Lemma find_filter_excluded {A} (f g : A -> bool) (l : list A) :
  (forall x, f x = true -> g x = false) -> find f (List.filter g l) = None.
Proof.
  intros Hfg. induction l as [ | x l IH]; [done | ]. cbn.
  destruct (g x) eqn:Hg; [ | done]. cbn.
  destruct (f x) eqn:Hf; [ | done]. apply Hfg in Hf. congruence.
Qed.

Lemma find_filter_kept {A} (f g : A -> bool) (l : list A) :
  (forall x, f x = true -> g x = true) -> find f (List.filter g l) = find f l.
Proof.
  intros Hfg. induction l as [ | x l IH]; [done | ]. cbn.
  destruct (g x) eqn:Hg; cbn.
  - by rewrite IH.
  - destruct (f x) eqn:Hf; [ | done]. apply Hfg in Hf. congruence.
Qed.

(** X14: a POST to delete_connection for a connection of the user removes
    every row with that key, so no user finds the connection afterwards,
    leaves every row with another key in place, flashes the success
    message with the connection's name and redirects to the dashboard
    without creating an adapter.  Any other method only renders the
    confirmation page. *)
Theorem delete_connection_removes_row (o : Orm) (request : Request) (connection_id : Z)
    (s : State) (connection : DatabaseConnection) :
  owned_connection connection_id (user request) (connections s) = Some connection ->
  (method request = "POST" ->
   exists s',
     delete_connection o request connection_id s = (Returns (RedirectTo "dashboard"), s')
     /\ (forall u, owned_connection connection_id u (connections s') = None)
     /\ (forall other u, other <> connection_id ->
           owned_connection other u (connections s')
           = owned_connection other u (connections s))
     /\ flashed s'
        = flashed s ++ [(LSuccess, "Connection " +:+ dquote +:+ conn_name connection
                                     +:+ dquote +:+ " deleted successfully!")]
     /\ trace s' = trace s /\ session s' = session s)
  /\ (String.eqb (method request) "POST" = false ->
      delete_connection o request connection_id s
      = (Returns (Page "database_tool/delete_connection.html"
                    (CtxDeleteConnection connection)), s)).
Proof.
  intros Hown. destruct (owned_connection_user _ _ _ _ Hown) as [Hid _].
  unfold delete_connection, mbind, M_bind, get_object_or_404. rewrite Hown.
  split.
  - intros ->. cbn [String.eqb Ascii.eqb Bool.eqb].
    eexists. split; [reflexivity | ]. cbn. rewrite Hid. repeat split.
    + intros u. apply find_filter_excluded.
      intros c [Hc _]%andb_prop. apply bool_decide_eq_true in Hc.
      by rewrite Hc, bool_decide_eq_true_2.
    + intros other u Hother. apply find_filter_kept.
      intros c [Hc _]%andb_prop. apply bool_decide_eq_true in Hc.
      rewrite Hc, bool_decide_eq_false_2; [done | congruence].
  - by intros ->.
Qed.

Lemma delete_connection_removes_row_witness :
  exists s',
    delete_connection plain_orm (post_connection true) 7 initial
    = (Returns (RedirectTo "dashboard"), s')
    /\ (forall u, owned_connection 7 u (connections s') = None).
Proof.
  destruct (delete_connection_removes_row plain_orm (post_connection true) 7 initial shop
              eq_refl) as [Hpost _].
  destruct (Hpost eq_refl) as (s' & Hrun & Hgone & _).
  by exists s'.
Defined.

(** ** dashboard *)

(** X15: for a logged-in user dashboard raises on every request, before
    it renders anything and without changing the state: line 23 slices the
    query history ([[:10]]) and line 27 calls [filter] on the slice, which
    a queryset refuses, with the exception class of the installed Django.
    A visitor who is not logged in is sent to the login page by
    [login_required] (line 19). *)
Theorem dashboard_filters_a_slice (o : Orm) (request : Request) (s : State) :
  (is_authenticated (user request) = true ->
   View.dashboard o request s
   = (Raises (Exn (orm_slice_error o) "Cannot filter a query once a slice has been taken."),
      s))
  /\ (is_authenticated (user request) = false ->
      View.dashboard o request s = (Returns LoginRedirect, s)).
Proof.
  split.
  - intros Hauth. unfold View.dashboard. rewrite login_required_logged_in by done.
    by apply passed_raises.
  - intros Hanonymous. by apply login_required_anonymous.
Qed.

Lemma dashboard_filters_a_slice_witness :
  View.dashboard plain_orm get_request initial
  = (Raises (Exn TypeError "Cannot filter a query once a slice has been taken."), initial).
Proof.
  apply (proj1 (dashboard_filters_a_slice plain_orm get_request initial)).
  reflexivity.
Defined.

(** The refusal comes from the slice alone: before slicing, the same
    filter returns. *)
Lemma qs_filter_after_slice {A} (slice_error : exn_class) (p : A -> bool) (n : nat)
    (qs : QuerySet A) :
  (exists e, qs_filter slice_error p (qs_slice n qs) = Raises e)
  /\ (qs_limit qs = None ->
      exists filtered, qs_filter slice_error p qs = Returns filtered
        /\ qs_list filtered = List.filter p (qs_rows qs)).
Proof.
  split; [by eexists | ].
  intros Hnone. unfold qs_filter. rewrite Hnone. by eexists.
Qed.

(** ** The API views *)

(** The function under the decorators always answers with JSON. *)
Lemma api_validate_query_function_answers (w : World) (o : Orm) (request : ApiRequest)
    (s : State) :
  exists body status s',
    api_validate_query w o request s = (Returns (JsonResponse body status), s')
    /\ (status = 405 <-> String.eqb (method (api_http request)) "POST" = false)
    /\ (status = 200 \/ status = 405 \/ status = 500)
    /\ (status = 200 <-> api_success body = true)
    /\ (status = 200 ->
        exists data valid message,
          api_json request = BodyObject data
          /\ body = ApiValid valid message
          /\ w_validate_query w (adapters s) (dict_get data "query" (PStr EmptyString))
             = Returns (valid, message))
    /\ (forall ev, ev ∈ emitted s s' ->
          ev = EvCreate (adapters s)
          \/ ev = EvValidate (adapters s)
                    (dict_get (match api_json request with
                               | BodyObject data => data
                               | _ => ∅
                               end) "query" (PStr EmptyString)))
    /\ connections s' = connections s /\ history s' = history s
    /\ session s' = session s /\ flashed s' = flashed s.
Proof.
  unfold_more; paths; eexists _, _, _; (split; [reflexivity | ]).
  all: repeat split; try done; try (by auto); try (by eauto 10).
  all: try (first [erewrite emitted_app by (simpl; rewrite <- ?app_assoc; reflexivity)
                  | erewrite emitted_nil by reflexivity];
            intros ev Hin; member Hin; auto).
Qed.

(** X16: for a logged-in user api_validate_query never raises: it always
    answers with a JSON response, 405 exactly for a request that is not a
    POST, else 200 or 500.  A 200 carries what [validate_query] returned
    for the body's query.  The view only ever creates an adapter and calls
    [validate_query] on it: it never connects, executes or disconnects,
    and it leaves saved connections, history, session and flash messages
    as they are.  A visitor who is not logged in is sent to the login page
    by [login_required] (line 374), with nothing created. *)
Theorem api_validate_query_only_validates (w : World) (o : Orm) (request : ApiRequest)
    (s : State) :
  (is_authenticated (user (api_http request)) = true ->
   exists body status s',
     View.api_validate_query w o request s
     = (Returns (Passed (JsonResponse body status)), s')
     /\ (status = 405 <-> String.eqb (method (api_http request)) "POST" = false)
     /\ (status = 200 \/ status = 405 \/ status = 500)
     /\ (status = 200 <-> api_success body = true)
     /\ (status = 200 ->
         exists data valid message,
           api_json request = BodyObject data
           /\ body = ApiValid valid message
           /\ w_validate_query w (adapters s) (dict_get data "query" (PStr EmptyString))
              = Returns (valid, message))
     /\ (forall ev, ev ∈ emitted s s' ->
           ev = EvCreate (adapters s)
           \/ ev = EvValidate (adapters s)
                     (dict_get (match api_json request with
                                | BodyObject data => data
                                | _ => ∅
                                end) "query" (PStr EmptyString)))
     /\ connections s' = connections s /\ history s' = history s
     /\ session s' = session s /\ flashed s' = flashed s)
  /\ (is_authenticated (user (api_http request)) = false ->
      View.api_validate_query w o request s = (Returns LoginRedirect, s)).
Proof.
  split.
  - intros Hauth.
    destruct (api_validate_query_function_answers w o request s)
      as (body & status & s' & Hrun & Hrest).
    exists body, status, s'. split; [ | exact Hrest].
    unfold View.api_validate_query, csrf_exempt.
    rewrite login_required_logged_in by done. by apply passed_returns.
  - intros Hanonymous. by apply login_required_anonymous.
Qed.

Lemma api_validate_query_only_validates_witness :
  exists body status s',
    View.api_validate_query
      (scripted true (Returns orders_info) (Returns orders) (Returns "{}")
         (Returns (true, "ok")))
      plain_orm
      (api_request "POST" alice None
         (BodyObject (<["query" := PStr "DROP TABLE x"]> (<["connection_id" := PInt 7]> ∅))))
      initial
    = (Returns (Passed (JsonResponse body status)), s')
    /\ (status = 200 \/ status = 405 \/ status = 500)
    /\ history s' = history initial.
Proof.
  destruct (proj1 (api_validate_query_only_validates
                     (scripted true (Returns orders_info) (Returns orders) (Returns "{}")
                        (Returns (true, "ok")))
                     plain_orm
                     (api_request "POST" alice None
                        (BodyObject (<["query" := PStr "DROP TABLE x"]>
                                       (<["connection_id" := PInt 7]> ∅))))
                     initial) eq_refl)
    as (body & status & s' & Hrun & _ & Hstatus & _ & _ & _ & _ & Hh & _).
  by exists body, status, s'.
Defined.

(** X17: where the other views answer 404, api_validate_query answers
    500: the lookup of the connection is inside its [try], so for a
    logged-in user the Http404 for a connection that does not exist or
    belongs to another user is caught and reported as an error body, with
    nothing created. *)
Theorem api_validate_query_unknown_connection (w : World) (o : Orm) (request : ApiRequest)
    (s : State) (data : gmap string pyval) (connection_id : Z) :
  is_authenticated (user (api_http request)) = true ->
  method (api_http request) = "POST" ->
  api_json request = BodyObject data ->
  data !! "connection_id" = Some (PInt connection_id) ->
  owned_connection connection_id (user (api_http request)) (connections s) = None ->
  View.api_validate_query w o request s
  = (Returns (Passed (JsonResponse (ApiError (exn_str not_found)) 500)), s).
Proof.
  intros Hauth Hpost Hbody Hkey Hown.
  unfold View.api_validate_query, csrf_exempt.
  rewrite login_required_logged_in by done. apply passed_returns.
  unfold api_validate_query, try_except, mbind, M_bind, mret, M_ret, dict_get,
    get_object_or_404_key, get_object_or_404, api_error.
  rewrite Hpost, Hbody, Hkey. cbn [String.eqb Ascii.eqb Bool.eqb]. by rewrite Hown.
Qed.

Lemma api_validate_query_unknown_connection_witness :
  View.api_validate_query
    (scripted true (Returns orders_info) (Returns orders) (Returns "{}") (Returns (true, "ok")))
    plain_orm
    (api_request "POST" bob None
       (BodyObject (<["query" := PStr "SELECT 1"]> (<["connection_id" := PInt 7]> ∅))))
    initial
  = (Returns
       (Passed (JsonResponse (ApiError "No DatabaseConnection matches the given query.") 500)),
     initial).
Proof.
  apply (api_validate_query_unknown_connection _ _ _ _
           (<["query" := PStr "SELECT 1"]> (<["connection_id" := PInt 7]> ∅)) 7);
    reflexivity.
Defined.




(** X19: api_preview_table takes [limit] and [offset] from the query
    string through [int()] inside its [try].  When [int()] raises on
    either, the answer is 500 with that error and no adapter is created.
    Otherwise the numbers go to [get_table_data] as they are, negative
    ones included (defaults 10 and 0), and the 200 answer carries the
    columns, the rows as records and the row count of what it returned. *)
Theorem api_preview_table_limits (w : World) (request : ApiRequest) (connection_id : Z)
    (table_name : string) (s : State) (connection : DatabaseConnection) :
  owned_connection connection_id (user (api_http request)) (connections s) = Some connection ->
  (forall e,
     api_limit request = Some (Raises e)
       \/ (exists l, default (Returns 10) (api_limit request) = Returns l)
          /\ api_offset request = Some (Raises e) ->
     api_preview_table w request connection_id table_name s
     = (Returns (JsonResponse (ApiError (exn_str e)) 500), s))
  /\ (forall limit offset preview_df u u',
        default (Returns 10) (api_limit request) = Returns limit ->
        default (Returns 0) (api_offset request) = Returns offset ->
        w_create w (adapters s) connection = Returns u ->
        w_connect w (adapters s) = Returns true ->
        w_get_table_data w (adapters s) table_name limit (Some offset) = Returns preview_df ->
        w_disconnect w (adapters s) = Returns u' ->
        (api_preview_table w request connection_id table_name s).1
        = Returns (JsonResponse
                     (ApiPreview (df_columns preview_df) (to_dict_records preview_df)
                        (length (df_rows preview_df))) 200)).
Proof.
  intros Hown.
  unfold api_preview_table, mbind, M_bind, get_object_or_404. rewrite Hown.
  split.
  - intros e [Hlimit | [[l Hlimit] Hoffset]].
    + unfold try_except, lift, api_error. by rewrite Hlimit.
    + unfold try_except, lift, api_error. by rewrite Hlimit, Hoffset.
  - intros limit offset preview_df u u' Hlimit Hoffset Hcreate Hconnect Hdata Hdisconnect.
    unfold_more. unfold_views. rewrite Hlimit, Hoffset. cbn.
    rewrite Hcreate. cbn. rewrite Hconnect. cbn. rewrite Hdata. cbn.
    by rewrite Hdisconnect.
Qed.

Lemma api_preview_table_limits_witness :
  (api_preview_table
     (scripted true (Returns orders_info) (Returns orders) (Returns "{}") (Returns (true, "ok")))
     (api_request "GET" alice (Some (Returns (-5))) (BodyOther "list")) 7 "orders" initial).1
  = Returns (JsonResponse
               (ApiPreview ["id"; "item"] (to_dict_records orders) 2) 200)
  /\ api_preview_table
       (scripted true (Returns orders_info) (Returns orders) (Returns "{}")
          (Returns (true, "ok")))
       (api_request "GET" alice
          (Some (Raises (Exn ValueError "invalid literal for int() with base 10: 'ten'")))
          (BodyOther "list")) 7 "orders" initial
     = (Returns (JsonResponse
                   (ApiError "invalid literal for int() with base 10: 'ten'") 500), initial).
Proof.
  split.
  - destruct (api_preview_table_limits
                (scripted true (Returns orders_info) (Returns orders) (Returns "{}")
                   (Returns (true, "ok")))
                (api_request "GET" alice (Some (Returns (-5))) (BodyOther "list")) 7 "orders"
                initial shop eq_refl) as [_ H].
    apply (H (-5) 0 orders () ()); reflexivity.
  - destruct (api_preview_table_limits
                (scripted true (Returns orders_info) (Returns orders) (Returns "{}")
                   (Returns (true, "ok")))
                (api_request "GET" alice
                   (Some (Raises (Exn ValueError
                                    "invalid literal for int() with base 10: 'ten'")))
                   (BodyOther "list")) 7 "orders" initial shop eq_refl) as [H _].
    apply (H (Exn ValueError "invalid literal for int() with base 10: 'ten'")).
    by left.
Defined.

(** ** query_table: what it raises, and what it does without a query *)

(** X10: the views that open an adapter contain its errors.
    connection_detail and table_detail raise nothing but the Http404 of
    the ownership check; query_table raises nothing but that Http404 and
    the KeyError of a valid form without [query_type]; whatever an adapter
    raises ends in a flash message and a page.  A view that raises has
    changed nothing. *)
Theorem views_contain_adapter_errors (w : World) (request : Request) (connection_id : Z)
    (table_name : string) (s : State) (e : exn) :
  ((connection_detail w request connection_id s).1 = Raises e ->
   e = not_found /\ (connection_detail w request connection_id s).2 = s)
  /\ ((table_detail w request connection_id table_name s).1 = Raises e ->
      e = not_found /\ (table_detail w request connection_id table_name s).2 = s)
  /\ ((query_table w request connection_id s).1 = Raises e ->
      (e = not_found \/ e = Exn KeyError "'query_type'")
      /\ (query_table w request connection_id s).2 = s).
Proof.
  split; [ | split]; intros Hraises; revert Hraises; paths; intros [=]; subst; auto.
Qed.

Lemma views_contain_adapter_errors_witness :
  let w := scripted true (Returns orders_info) (Returns orders) (Returns "{}")
             (Returns (true, "ok")) in
  (query_table w (post_query ∅) 7 initial).1 = Raises (Exn KeyError "'query_type'")
  /\ (Exn KeyError "'query_type'" = not_found
      \/ Exn KeyError "'query_type'" = Exn KeyError "'query_type'")
  /\ (query_table w (post_query ∅) 7 initial).2 = initial.
Proof.
  cbn zeta.
  assert ((query_table
             (scripted true (Returns orders_info) (Returns orders) (Returns "{}")
                (Returns (true, "ok"))) (post_query ∅) 7 initial).1
          = Raises (Exn KeyError "'query_type'")) as Hraises by (vm_compute; reflexivity).
  split; [exact Hraises | ].
  destruct (views_contain_adapter_errors
              (scripted true (Returns orders_info) (Returns orders) (Returns "{}")
                 (Returns (true, "ok"))) (post_query ∅) 7 "orders" initial
              (Exn KeyError "'query_type'")) as (_ & _ & H).
  exact (H Hraises).
Defined.

(** X11: when [connect()] returns false for a submitted query,
    query_table flashes "Query failed: Could not connect to database" and
    shows the form again; the attempt is not written to the history (the
    local [query] is not bound yet, line 237), nothing is validated,
    executed or stored, and the adapter is not disconnected. *)
Theorem connect_failure_is_not_logged (w : World) (request : Request) (connection_id : Z)
    (s : State) (connection : DatabaseConnection) (query_type : pyval) (u : unit) :
  owned_connection connection_id (user request) (connections s) = Some connection ->
  method request = "POST" ->
  qf_is_valid (post_query_form request) = true ->
  qf_cleaned_data (post_query_form request) !! "query_type" = Some query_type ->
  w_create w (adapters s) connection = Returns u ->
  w_connect w (adapters s) = Returns false ->
  let run := query_table w request connection_id s in
  (exists form tables,
     run.1 = Returns (Render "database_tool/query_form.html"
                        (CtxQueryForm connection form tables)))
  /\ history run.2 = history s
  /\ session run.2 = session s
  /\ flashed run.2 = flashed s ++ [(LError, "Query failed: Could not connect to database")]
  /\ quiet (emitted s run.2) = true
  /\ EvDisconnect (adapters s) ∉ emitted s run.2.
Proof.
  intros Hown Hpost Hvalid Htype Hcreate Hconnect. cbn zeta.
  unfold query_table, mbind, M_bind, get_object_or_404, dict_index, mret, M_ret.
  rewrite Hown, Hpost, Hvalid, Htype. cbn [String.eqb Ascii.eqb Bool.eqb].
  unfold query_attempt, try_except, Connector.create_database_connector, Connector.connect,
    mbind, M_bind, fresh_adapter, log, lift, mret, M_ret, raise.
  cbn. rewrite Hcreate. cbn. rewrite Hconnect. cbn.
  paths; (split; [by eexists _, _ | ]); repeat split.
  all: emitted_events; try reflexivity; intros Hin; member Hin; lia.
Qed.

Lemma connect_failure_is_not_logged_witness :
  let w := scripted false (Returns orders_info) (Returns orders) (Returns "{}")
             (Returns (true, "ok")) in
  let run := query_table w (post_query (custom "SELECT 1")) 7 initial in
  history run.2 = [] 
  /\ flashed run.2 = [(LError, "Query failed: Could not connect to database")].
Proof.
  cbn zeta.
  destruct (connect_failure_is_not_logged
              (scripted false (Returns orders_info) (Returns orders) (Returns "{}")
                 (Returns (true, "ok"))) (post_query (custom "SELECT 1")) 7 initial shop
              (PStr "custom") () eq_refl eq_refl eq_refl eq_refl eq_refl eq_refl)
    as (_ & Hh & _ & Hf & _).
  split; [exact Hh | exact Hf].
Defined.

(** X20: when the form yields no query (a query type other than the
    three, 'all' or 'limit' without a table, 'custom' without text),
    query_table flashes "No valid query to execute" and shows the form
    again: nothing is validated or executed, nothing is written to the
    history or the session, and the connected adapter is not
    disconnected. *)
Theorem no_query_is_not_an_attempt (w : World) (request : Request) (connection_id : Z)
    (s : State) (connection : DatabaseConnection) (query_type : pyval) (u : unit) :
  owned_connection connection_id (user request) (connections s) = Some connection ->
  method request = "POST" ->
  qf_is_valid (post_query_form request) = true ->
  qf_cleaned_data (post_query_form request) !! "query_type" = Some query_type ->
  w_create w (adapters s) connection = Returns u ->
  w_connect w (adapters s) = Returns true ->
  truthy (build_query (conn_db_type connection) query_type
            (dict_get (qf_cleaned_data (post_query_form request)) "table_name" PNone)
            (qf_cleaned_data (post_query_form request))) = false ->
  let run := query_table w request connection_id s in
  (exists form tables,
     run.1 = Returns (Render "database_tool/query_form.html"
                        (CtxQueryForm connection form tables)))
  /\ history run.2 = history s
  /\ session run.2 = session s
  /\ flashed run.2 = flashed s ++ [(LError, "No valid query to execute")]
  /\ quiet (emitted s run.2) = true
  /\ EvDisconnect (adapters s) ∉ emitted s run.2.
Proof.
  intros Hown Hpost Hvalid Htype Hcreate Hconnect Hquery. cbn zeta.
  unfold query_table, mbind, M_bind, get_object_or_404, dict_index, mret, M_ret.
  rewrite Hown, Hpost, Hvalid, Htype. cbn [String.eqb Ascii.eqb Bool.eqb].
  unfold query_attempt, run_query, try_except, Connector.create_database_connector,
    Connector.connect, mbind, M_bind, fresh_adapter, log, lift, mret, M_ret, raise.
  cbn. rewrite Hcreate. cbn. rewrite Hconnect. cbn. rewrite Hquery. cbn.
  paths; (split; [by eexists _, _ | ]); repeat split.
  all: emitted_events; try reflexivity; intros Hin; member Hin; lia.
Qed.

Lemma no_query_is_not_an_attempt_witness :
  let w := scripted true (Returns orders_info) (Returns orders) (Returns "{}")
             (Returns (true, "ok")) in
  let run := query_table w (post_query (<["query_type" := PStr "all"]> ∅)) 7 initial in
  history run.2 = []
  /\ flashed run.2 = [(LError, "No valid query to execute")].
Proof.
  cbn zeta.
  assert (qf_cleaned_data (post_query_form (post_query (<["query_type" := PStr "all"]> ∅)))
            !! "query_type" = Some (PStr "all")) as Htype by (vm_compute; reflexivity).
  destruct (no_query_is_not_an_attempt
              (scripted true (Returns orders_info) (Returns orders) (Returns "{}")
                 (Returns (true, "ok")))
              (post_query (<["query_type" := PStr "all"]> ∅)) 7 initial shop
              (PStr "all") () eq_refl eq_refl eq_refl Htype eq_refl eq_refl eq_refl)
    as (_ & Hh & _ & Hf & _).
  split; [exact Hh | exact Hf].
Defined.

(** ** Stored results of different connections *)

Lemma str_int_inj (a b : Z) : str_int a = str_int b -> a = b.
Proof.
  intros Heq.
  assert (Some a = Some b) as [= ->]; [ | done].
  by rewrite <- (str_int_reads_back a), <- (str_int_reads_back b), Heq.
Qed.

Lemma string_app_inj (prefix s t : string) : prefix +:+ s = prefix +:+ t -> s = t.
Proof.
  induction prefix as [ | c prefix IH]; [done | ].
  intros [= Heq]. by apply IH.
Qed.

(** X12: the session keys of two different connections differ, and a
    query on one connection never changes the result stored for another:
    after query_table for connection [a], the session holds for every
    other connection [b] what it held before. *)
Theorem results_of_other_connections_are_kept (w : World) (request : Request)
    (a b : Z) (s : State) :
  a <> b ->
  session_key a <> session_key b
  /\ session (query_table w request a s).2 !! session_key b = session s !! session_key b.
Proof.
  intros Hab.
  assert (session_key a <> session_key b) as Hkey.
  { unfold session_key. intros Heq%string_app_inj%str_int_inj. done. }
  split; [done | ].
  paths; try done; by rewrite lookup_insert_ne.
Qed.

Lemma results_of_other_connections_are_kept_witness :
  let w := scripted true (Returns orders_info) (Returns orders) (Returns "{}")
             (Returns (true, "ok")) in
  session_key 7 <> session_key 8
  /\ session (query_table w (post_query (custom "SELECT * FROM orders")) 7 initial).2
       !! session_key 8
     = session initial !! session_key 8.
Proof.
  cbn zeta. apply results_of_other_connections_are_kept. lia.
Defined.

(** ** Rows as records *)

Lemma dict_set_fresh {V} (k : string) (v : V) (d : list (string * V)) :
  k ∉ d.*1 -> dict_set k v d = d ++ [(k, v)].
Proof.
  induction d as [ | [k' v'] d IH]; intros Hfresh; [done | ].
  cbn in *. apply not_elem_of_cons in Hfresh as [Hne Hfresh].
  destruct (String.eqb_spec k' k) as [-> | _]; [done | ].
  by rewrite IH.
Qed.

Lemma dict_of_pairs_fresh {V} (kvs acc : list (string * V)) :
  NoDup (acc.*1 ++ kvs.*1) ->
  foldl (fun d kv => dict_set kv.1 kv.2 d) acc kvs = acc ++ kvs.
Proof.
  revert acc. induction kvs as [ | [k v] kvs IH]; intros acc Hnodup; cbn.
  - by rewrite app_nil_r.
  - cbn in Hnodup. rewrite dict_set_fresh.
    + rewrite IH; [by rewrite <- app_assoc | ].
      by rewrite fmap_app, <- app_assoc.
    + apply NoDup_app in Hnodup as (_ & Hdisjoint & _).
      intros Hin. apply (Hdisjoint k Hin). left.
Qed.

Lemma zip_keys_nodup {V} (columns : list string) (row : list V) :
  NoDup columns -> NoDup (zip columns row).*1.
Proof.
  intros Hnodup. revert row. induction Hnodup as [ | c columns Hc Hnodup IH]; intros row.
  - constructor.
  - destruct row as [ | v row]; cbn; [constructor | ].
    constructor; [ | apply IH].
    intros Hin. apply Hc.
    apply list_elem_of_fmap in Hin as ([c' v'] & -> & Hin).
    by apply elem_of_zip_l in Hin.
Qed.

(** X13: when the column labels of a result are distinct, the records of
    [to_dict('records')] keep every column in its place: each row becomes
    the list of its (label, value) pairs in column order, so the preview
    of a result shows all its columns in order.  With a repeated label the
    record keeps one entry for it, holding the later value. *)
Theorem records_keep_distinct_columns (df : DataFrame) :
  NoDup (df_columns df) ->
  to_dict_records df = map (zip (df_columns df)) (df_rows df)
  /\ rd_data (make_result_data df) = map (zip (df_columns df)) (take 100 (df_rows df))
  /\ forall (label : string) (v v' : cell),
       dict_of_pairs [(label, v); (label, v')] = [(label, v')].
Proof.
  intros Hnodup.
  assert (forall row : list cell,
            dict_of_pairs (zip (df_columns df) row) = zip (df_columns df) row) as Hrow.
  { intros row. unfold dict_of_pairs. rewrite dict_of_pairs_fresh; [done | ].
    cbn. by apply zip_keys_nodup. }
  split; [ | split].
  - unfold to_dict_records. apply map_ext. intros row. apply Hrow.
  - unfold make_result_data, to_dict_records, df_head; cbn. apply map_ext.
    intros row. apply Hrow.
  - intros label v v'. cbn. by rewrite String.eqb_refl.
Qed.

Lemma records_keep_distinct_columns_witness :
  to_dict_records orders
  = [[("id", CInt 1); ("item", CText "tea")]; [("id", CInt 2); ("item", CText "milk")]].
Proof.
  destruct (records_keep_distinct_columns orders) as [H _].
  - cbn. apply NoDup_cons. split; [ | apply NoDup_singleton].
    intros Hin. member Hin.
  - rewrite H. reflexivity.
Defined.

(** ** Edges of the query builder *)

Lemma append_cons (c : ascii) (s t : string) : String c s +:+ t = String c (s +:+ t).
Proof. reflexivity. Qed.

Lemma append_assoc (s t u : string) : (s +:+ t) +:+ u = s +:+ t +:+ u.
Proof.
  induction s as [ | c s IH]; [done | ].
  by rewrite !append_cons, IH.
Qed.

(** X21: what [build_query] makes of edge inputs.  Without [limit_rows]
    and [offset_rows] in the cleaned data a page is [LIMIT 1000 OFFSET 0];
    a key that is present with the value None is written as [None] into
    the statement; a query type other than 'all', 'limit' and 'custom'
    gives no query, as does 'custom' without [custom_query]; and the
    table name is copied into the statement as it is, a closing bracket
    included. *)
Theorem build_query_edges (db_type t : string) (cleaned_data : gmap string pyval) :
  t <> EmptyString ->
  (cleaned_data !! "limit_rows" = None ->
   cleaned_data !! "offset_rows" = None ->
   build_query db_type (PStr "limit") (PStr t) cleaned_data
   = PStr (select_page_sql db_type (PStr t) (PInt 1000) (PInt 0)))
  /\ (cleaned_data !! "limit_rows" = Some PNone ->
      cleaned_data !! "offset_rows" = Some PNone ->
      build_query "sqlite" (PStr "limit") (PStr t) cleaned_data
      = PStr ("SELECT * FROM [" +:+ t +:+ "] LIMIT None OFFSET None"))
  /\ (forall query_type,
        eq_str query_type "all" = false -> eq_str query_type "limit" = false ->
        eq_str query_type "custom" = false ->
        build_query db_type query_type (PStr t) cleaned_data = PNone)
  /\ (cleaned_data !! "custom_query" = None ->
      build_query db_type (PStr "custom") (PStr t) cleaned_data = PNone)
  /\ build_query "sqlite" (PStr "all") (PStr (t +:+ "] x")) cleaned_data
     = PStr ("SELECT * FROM [" +:+ t +:+ "] x]").
Proof.
  intros Ht.
  assert (truthy (PStr t) = true) as Htruthy.
  { cbn. by destruct (String.eqb_spec t EmptyString). }
  assert (truthy (PStr (t +:+ "] x")) = true) as Htruthy'.
  { destruct t as [ | c t]; [done | ]. by rewrite append_cons. }
  split; [ | split; [ | split; [ | split]]].
  - intros HL HO. unfold build_query, dict_get. by rewrite Htruthy, HL, HO.
  - intros HL HO. unfold build_query, dict_get. by rewrite Htruthy, HL, HO.
  - intros query_type Hall Hlimit Hcustom. unfold build_query.
    by rewrite Hall, Hlimit, Hcustom.
  - intros Hcustom. unfold build_query, dict_get. by rewrite Hcustom.
  - unfold build_query. rewrite Htruthy'.
    cbn [eq_str String.eqb Ascii.eqb Bool.eqb andb].
    unfold select_all_sql. cbn [String.eqb Ascii.eqb Bool.eqb format].
    f_equal. f_equal. by rewrite append_assoc.
Qed.

Lemma build_query_edges_witness :
  build_query "mysql" (PStr "limit") (PStr "orders") ∅
  = PStr "SELECT * FROM `orders` LIMIT 1000 OFFSET 0".
Proof.
  destruct (build_query_edges "mysql" "orders" ∅) as [H _]; [done | ].
  rewrite H; reflexivity.
Defined.
